(** * The InfraEnv manifest asset (pkg/asset/agent/manifests/infraenv.go)

    A shallow embedding of the asset that generates, reloads and validates
    [infraenv.yaml], and the properties its specification states about it.

    Go packages become modules, structs become records (one module per
    struct, the record is [t]), nullable pointers become [option], the
    pair [(T, error)] becomes [result T], and the receiver [i *InfraEnv]
    that the methods mutate is passed in and returned.  The only place the
    code can stop without returning, a nil pointer dereference, is made
    explicit by [outcome]. *)

From Stdlib Require Import String Ascii.
From stdpp Require Import base option list strings gmap.

Local Open Scope string_scope.

(** ** Go runtime: errors, results, panics *)

Module errors.

  (** Go's [error] values as this file meets them: what the collaborators
      hand back, and what [github.com/pkg/errors] builds. *)
Inductive error : Type :=
  | NotExist (path : string)          (* a collaborator error that os.IsNotExist accepts *)
  | External (msg : string)           (* any other collaborator error *)
  | New (msg : string)                (* errors.New / errors.Errorf *)
  | Wrap (cause : error) (msg : string). (* errors.Wrap / errors.Wrapf *)

  (** [errors.Errorf] and [errors.Wrapf]: the formatting is done by the
      caller with string concatenation. *)
Definition Errorf (msg : string) : error := New msg.
Definition Wrapf (cause : error) (msg : string) : error := Wrap cause msg.

End errors.

Abbreviation error := errors.error.

Module os.

  (** [os.IsNotExist] looks at the error itself, it does not unwrap the
      wrappers of pkg/errors. *)
Definition IsNotExist (err : error) : bool :=
    match err with
    | errors.NotExist _ => true
    | _ => false
    end.

End os.

(** A Go return pair [(T, error)] in which exactly one side is set. *)
Inductive result (T : Type) : Type :=
| Ok (v : T)
| Err (e : error).
Arguments Ok {T} v.
Arguments Err {T} e.

(** The early return [if err != nil { return ..., err }]. *)
#[export] Instance result_bind : MBind result :=
  fun A B k r =>
    match r with
    | Ok a => k a
    | Err e => Err e
    end.

(** A call either returns or panics. *)
Inductive outcome (T : Type) : Type :=
| Returned (v : T)
| Panicked (msg : string).
Arguments Returned {T} v.
Arguments Panicked {T} msg.

Definition returns {T : Type} (o : outcome T) : Prop :=
  exists v, o = Returned v.

(** ** strings.Trim *)

Module gostrings.

Fixpoint inCutset (cutset : string) (c : ascii) : bool :=
    match cutset with
    | EmptyString => false
    | String d rest => if Ascii.eqb c d then true else inCutset rest c
    end.

Fixpoint TrimLeft (s cutset : string) : string :=
    match s with
    | EmptyString => EmptyString
    | String c rest => if inCutset cutset c then TrimLeft rest cutset else s
    end.

Fixpoint TrimRight (s cutset : string) : string :=
    match s with
    | EmptyString => EmptyString
    | String c rest =>
        match TrimRight rest cutset with
        | EmptyString => if inCutset cutset c then EmptyString else String c EmptyString
        | kept => String c kept
        end
    end.

  (** [strings.Trim(s, cutset)]: all leading and trailing bytes contained
      in [cutset] removed (the cutsets used here are ASCII, where Go trims
      byte by byte: first the right end, then the left). *)
Definition Trim (s cutset : string) : string :=
    TrimLeft (TrimRight s cutset) cutset.

End gostrings.

(** ** filepath.Join *)

Module filepath.

  (** [filepath.Join(dir, name)] for two clean elements. *)
Definition Join (dir name : string) : string :=
    match dir with
    | EmptyString => name
    | _ => dir ++ "/" ++ name
    end.

End filepath.

(** ** github.com/coreos/stream-metadata-go/arch *)

Module arch.

  (** Modelled from the spec: [arch.RpmArch] belongs to a vendored library
      whose source is not part of the fragment.  It maps a Go/Debian
      architecture name to the RPM name: amd64 to x86_64, arm64 to aarch64
      (the two conversions the comments of Generate and Load name), and
      every other input passes through unchanged. *)
Definition RpmArch (a : string) : string :=
    if String.eqb a "amd64" then "x86_64"
    else if String.eqb a "arm64" then "aarch64"
    else a.

End arch.

(** ** The object model the manifest is built from *)

(** Modelled from the spec: the Kubernetes and assisted-service API types
    are declared outside the fragment.  Their records hold the attributes
    the specification lists for the Manifest: identity (name, namespace),
    the owning cluster reference, the access credential, the pull-secret
    reference, the label selector, the architecture tag, the optional
    proxy and the time sources. *)

Module metav1.

Module ObjectMeta.
Record t : Type := mk { Name : string; Namespace : string }.
End ObjectMeta.

Module LabelSelector.
Record t : Type := mk { MatchLabels : gmap string string }.
End LabelSelector.

End metav1.

Module corev1.

Module LocalObjectReference.
Record t : Type := mk { Name : string }.
End LocalObjectReference.

End corev1.

(** Modelled from the spec: the part of assisted-service's [InfraEnv]
    resource (the Manifest) that this asset writes and validates. *)
Module aiv1beta1.

Module ClusterReference.
Record t : Type := mk { Name : string; Namespace : string }.
End ClusterReference.

Module Proxy.
Record t : Type := mk { HTTPProxy : string; HTTPSProxy : string; NoProxy : string }.
End Proxy.

Module InfraEnvSpec.
Record t : Type := mk {
      ClusterRef : option ClusterReference.t;
      SSHAuthorizedKey : string;
      PullSecretRef : option corev1.LocalObjectReference.t;
      NMStateConfigLabelSelector : metav1.LabelSelector.t;
      CpuArchitecture : string;
      Proxy : option Proxy.t;
      AdditionalNTPSources : list string
    }.

    (** Assignments to single fields of a spec. *)
Definition setCpuArchitecture (a : string) (s : t) : t :=
      mk (ClusterRef s) (SSHAuthorizedKey s) (PullSecretRef s)
         (NMStateConfigLabelSelector s) a (Proxy s) (AdditionalNTPSources s).
Definition setProxy (p : option aiv1beta1.Proxy.t) (s : t) : t :=
      mk (ClusterRef s) (SSHAuthorizedKey s) (PullSecretRef s)
         (NMStateConfigLabelSelector s) (CpuArchitecture s) p (AdditionalNTPSources s).
Definition setAdditionalNTPSources (l : list string) (s : t) : t :=
      mk (ClusterRef s) (SSHAuthorizedKey s) (PullSecretRef s)
         (NMStateConfigLabelSelector s) (CpuArchitecture s) (Proxy s) l.
End InfraEnvSpec.

Module InfraEnv.
Record t : Type := mk { ObjectMeta : metav1.ObjectMeta.t; Spec : InfraEnvSpec.t }.

Definition setSpec (f : InfraEnvSpec.t -> InfraEnvSpec.t) (e : t) : t :=
      mk (ObjectMeta e) (f (Spec e)).
End InfraEnv.

End aiv1beta1.

(** Modelled from the spec: the install configuration of pkg/types, as
    far as Generate reads it: key material, control-plane architecture
    tag, optional proxy.  [ControlPlane] and [Proxy] are pointers in
    pkg/types, hence [option]; an architecture is a named string type. *)
Module types.

Definition ArchitectureAMD64 : string := "amd64".
Definition ArchitectureARM64 : string := "arm64".
Definition ArchitecturePPC64LE : string := "ppc64le".

Module MachinePool.
Record t : Type := mk { Architecture : string }.
End MachinePool.

Module Proxy.
Record t : Type := mk { HTTPProxy : string; HTTPSProxy : string; NoProxy : string }.
End Proxy.

Module InstallConfig.
Record t : Type := mk {
      ObjectMeta : metav1.ObjectMeta.t;
      SSHKey : string;
      ControlPlane : option MachinePool.t;
      Proxy : option Proxy.t
    }.
End InstallConfig.

End types.

(** Modelled from the spec: the two dependency assets, each exposing a
    nullable configuration object. *)
Module agent.

Module OptionalInstallConfig.
Record t : Type := mk { Config : option types.InstallConfig.t }.
End OptionalInstallConfig.

End agent.

Module agentconfig.

Module Config.
Record t : Type := mk { AdditionalNTPSources : list string }.
End Config.

Module AgentConfig.
Record t : Type := mk { Config : option Config.t }.
End AgentConfig.

End agentconfig.

(** Modelled from the spec: pkg/asset's file artifact (path and bytes),
    file fetcher and resolved parents. *)
Module asset.

  (** [asset.File]; [bytes] is the type of the serialized content. *)
Module File.
Record t (bytes : Type) : Type := mk { Filename : string; Data : bytes }.
Arguments mk {bytes} Filename Data.
Arguments Filename {bytes} _.
Arguments Data {bytes} _.
End File.

  (** [asset.FileFetcher]: on success a file, otherwise an error. *)
Module FileFetcher.
Record t (bytes : Type) : Type := mk { FetchByName : string -> result (File.t bytes) }.
Arguments mk {bytes} FetchByName.
Arguments FetchByName {bytes} _ _.
End FileFetcher.

  (** [asset.Parents] after the orchestrator resolved the two declared
      dependencies; [installConfig] and [agentConfig] are what
      [dependencies.Get] copies out. *)
Module Parents.
Record t : Type := mk {
      installConfig : agent.OptionalInstallConfig.t;
      agentConfig : agentconfig.AgentConfig.t
    }.
End Parents.

End asset.

(** ** Collaborators of the asset *)

(** The pieces of package manifests that live in sibling files: the
    manifest directory and the accessors deriving names from the install
    configuration.  Generate only calls them. *)
Class Helpers : Type := {
  clusterManifestDir : string;
  getInfraEnvName : agent.OptionalInstallConfig.t -> string;
  getObjectMetaNamespace : agent.OptionalInstallConfig.t -> string;
  getClusterDeploymentName : agent.OptionalInstallConfig.t -> string;
  getPullSecretName : agent.OptionalInstallConfig.t -> string;
  getNMStateConfigLabels : agent.OptionalInstallConfig.t -> gmap string string;
  getProxy : agent.OptionalInstallConfig.t -> option aiv1beta1.Proxy.t
}.

(** sigs.k8s.io/yaml, over the serialized form [bytes]: [Marshal],
    [UnmarshalStrict] into a fresh object, and the property of a document
    that strict decoding looks for, a field the schema does not have. *)
Class YAML (bytes : Type) : Type := {
  Marshal : aiv1beta1.InfraEnv.t -> result bytes;
  UnmarshalStrict : bytes -> result aiv1beta1.InfraEnv.t;
  hasUnknownField : bytes -> Prop
}.

(** What the asset expects from the library: what was written decodes to
    the object written, and a document with a field outside the schema is
    refused. *)
Class YAMLContract (bytes : Type) {yaml : YAML bytes} : Prop := {
  UnmarshalStrict_Marshal :
    forall (m : aiv1beta1.InfraEnv.t) (data : bytes),
      Marshal m = Ok data -> UnmarshalStrict data = Ok m;
  UnmarshalStrict_unknown :
    forall data : bytes,
      hasUnknownField data -> exists e, UnmarshalStrict data = Err e
}.

(** ** The asset *)

(** [InfraEnv] generates the infraenv.yaml file. *)
Record InfraEnv (bytes : Type) : Type := mkInfraEnv {
  File : option (asset.File.t bytes);
  Config : option aiv1beta1.InfraEnv.t
}.
Arguments mkInfraEnv {bytes} File Config.
Arguments File {bytes} _.
Arguments Config {bytes} _.

Section Asset.

Context {bytes : Type} {helpers : Helpers} {yaml : YAML bytes}.

Definition infraEnvFilename : string :=
  filepath.Join clusterManifestDir "infraenv.yaml".

(** The architectures [finish] lets through: the switch compares with
    the RPM names of amd64, arm64 and ppc64le and with the empty string. *)
Definition supportedArch (a : string) : bool :=
  String.eqb a (arch.RpmArch types.ArchitectureAMD64)
  || String.eqb a (arch.RpmArch types.ArchitectureARM64)
  || String.eqb a (arch.RpmArch types.ArchitecturePPC64LE)
  || String.eqb a "".

Definition finish (i : InfraEnv bytes) : option error :=
  match Config i with
  | None => Some (errors.New "missing configuration or manifest file")
  | Some config =>
      let a := aiv1beta1.InfraEnvSpec.CpuArchitecture (aiv1beta1.InfraEnv.Spec config) in
      if supportedArch a then None
      else Some (errors.Errorf ("Config.Spec.CpuArchitecture " ++ a ++ " is not supported "))
  end.

(** The cutset of the call to [strings.Trim]: pipe, newline, tab. *)
Definition sshKeyCutset : string :=
  String "|" (String "010" (String "009" EmptyString)).

(** [Generate] generates the InfraEnv manifest.  It returns the asset as
    the call leaves it, with the error. *)
Definition Generate (dependencies : asset.Parents.t) (i : InfraEnv bytes)
  : outcome (InfraEnv bytes * option error) :=
  let installConfig := asset.Parents.installConfig dependencies in
  let agentConfig := asset.Parents.agentConfig dependencies in
  match agent.OptionalInstallConfig.Config installConfig with
  | Some ic =>
      let infraEnv :=
        aiv1beta1.InfraEnv.mk
          (metav1.ObjectMeta.mk (getInfraEnvName installConfig)
                                (getObjectMetaNamespace installConfig))
          (aiv1beta1.InfraEnvSpec.mk
             (Some (aiv1beta1.ClusterReference.mk
                      (getClusterDeploymentName installConfig)
                      (getObjectMetaNamespace installConfig)))
             (gostrings.Trim (types.InstallConfig.SSHKey ic) sshKeyCutset)
             (Some (corev1.LocalObjectReference.mk (getPullSecretName installConfig)))
             (metav1.LabelSelector.mk (getNMStateConfigLabels installConfig))
             ""
             None
             []) in
      match types.InstallConfig.ControlPlane ic with
      | None => Panicked "invalid memory address or nil pointer dereference"
      | Some controlPlane =>
          let infraEnv :=
            if negb (String.eqb (types.MachinePool.Architecture controlPlane) "")
            then aiv1beta1.InfraEnv.setSpec
                   (aiv1beta1.InfraEnvSpec.setCpuArchitecture
                      (arch.RpmArch (types.MachinePool.Architecture controlPlane)))
                   infraEnv
            else infraEnv in
          let infraEnv :=
            match types.InstallConfig.Proxy ic with
            | Some _ =>
                aiv1beta1.InfraEnv.setSpec
                  (aiv1beta1.InfraEnvSpec.setProxy (getProxy installConfig)) infraEnv
            | None => infraEnv
            end in
          let infraEnv :=
            match agentconfig.AgentConfig.Config agentConfig with
            | Some ac =>
                aiv1beta1.InfraEnv.setSpec
                  (aiv1beta1.InfraEnvSpec.setAdditionalNTPSources
                     (agentconfig.Config.AdditionalNTPSources ac)) infraEnv
            | None => infraEnv
            end in
          let i := mkInfraEnv (File i) (Some infraEnv) in
          match Marshal infraEnv with
          | Err err =>
              Returned (i, Some (errors.Wrap err "failed to marshal agent installer infraEnv"))
          | Ok infraEnvData =>
              let i := mkInfraEnv (Some (asset.File.mk infraEnvFilename infraEnvData))
                                  (Config i) in
              Returned (i, finish i)
          end
      end
  | None => Returned (i, finish i)
  end.

(** [Files] returns the files generated by the asset. *)
Definition Files (i : InfraEnv bytes) : list (asset.File.t bytes) :=
  match File i with
  | Some file => [file]
  | None => []
  end.

(** [Load] returns the infraenv asset from the disk: the asset as the
    call leaves it, the found flag and the error. *)
Definition Load (f : asset.FileFetcher.t bytes) (i : InfraEnv bytes)
  : InfraEnv bytes * (bool * option error) :=
  match asset.FileFetcher.FetchByName f infraEnvFilename with
  | Err err =>
      if os.IsNotExist err then (i, (false, None))
      else (i, (false, Some (errors.Wrap err ("failed to load " ++ infraEnvFilename ++ " file"))))
  | Ok file =>
      match UnmarshalStrict (asset.File.Data file) with
      | Err err =>
          (i, (false, Some (errors.Wrapf err ("failed to unmarshal " ++ infraEnvFilename))))
      | Ok config =>
          let config :=
            if negb (String.eqb (aiv1beta1.InfraEnvSpec.CpuArchitecture
                                   (aiv1beta1.InfraEnv.Spec config)) "")
            then aiv1beta1.InfraEnv.setSpec
                   (aiv1beta1.InfraEnvSpec.setCpuArchitecture
                      (arch.RpmArch (aiv1beta1.InfraEnvSpec.CpuArchitecture
                                       (aiv1beta1.InfraEnv.Spec config))))
                   config
            else config in
          let i := mkInfraEnv (Some file) (Some config) in
          match finish i with
          | Some err => (i, (false, Some err))
          | None => (i, (true, None))
          end
      end
  end.

End Asset.

(** ** Shorthand for the two fields the properties look at *)

Definition cpuArchitecture (m : aiv1beta1.InfraEnv.t) : string :=
  aiv1beta1.InfraEnvSpec.CpuArchitecture (aiv1beta1.InfraEnv.Spec m).

Definition sshAuthorizedKey (m : aiv1beta1.InfraEnv.t) : string :=
  aiv1beta1.InfraEnvSpec.SSHAuthorizedKey (aiv1beta1.InfraEnv.Spec m).

(** The assignment [config.Spec.CpuArchitecture = a]. *)
Definition withCpuArchitecture (a : string) (m : aiv1beta1.InfraEnv.t)
  : aiv1beta1.InfraEnv.t :=
  aiv1beta1.InfraEnv.setSpec (aiv1beta1.InfraEnvSpec.setCpuArchitecture a) m.

(** [m] carries what Generate puts into the manifest for an install
    configuration [ic] with control-plane section [controlPlane]: lines
    56 to 87, field by field. *)
Definition builtFrom {helpers : Helpers} (dependencies : asset.Parents.t)
    (ic : types.InstallConfig.t) (controlPlane : types.MachinePool.t)
    (m : aiv1beta1.InfraEnv.t) : Prop :=
  aiv1beta1.InfraEnv.ObjectMeta m
  = metav1.ObjectMeta.mk (getInfraEnvName (asset.Parents.installConfig dependencies))
                         (getObjectMetaNamespace (asset.Parents.installConfig dependencies))
  /\ aiv1beta1.InfraEnvSpec.ClusterRef (aiv1beta1.InfraEnv.Spec m)
     = Some (aiv1beta1.ClusterReference.mk
               (getClusterDeploymentName (asset.Parents.installConfig dependencies))
               (getObjectMetaNamespace (asset.Parents.installConfig dependencies)))
  /\ sshAuthorizedKey m = gostrings.Trim (types.InstallConfig.SSHKey ic) sshKeyCutset
  /\ aiv1beta1.InfraEnvSpec.PullSecretRef (aiv1beta1.InfraEnv.Spec m)
     = Some (corev1.LocalObjectReference.mk
               (getPullSecretName (asset.Parents.installConfig dependencies)))
  /\ aiv1beta1.InfraEnvSpec.NMStateConfigLabelSelector (aiv1beta1.InfraEnv.Spec m)
     = metav1.LabelSelector.mk
         (getNMStateConfigLabels (asset.Parents.installConfig dependencies))
  /\ cpuArchitecture m = arch.RpmArch (types.MachinePool.Architecture controlPlane)
  /\ aiv1beta1.InfraEnvSpec.Proxy (aiv1beta1.InfraEnv.Spec m)
     = match types.InstallConfig.Proxy ic with
       | Some _ => getProxy (asset.Parents.installConfig dependencies)
       | None => None
       end
  /\ aiv1beta1.InfraEnvSpec.AdditionalNTPSources (aiv1beta1.InfraEnv.Spec m)
     = match agentconfig.AgentConfig.Config (asset.Parents.agentConfig dependencies) with
       | Some ac => agentconfig.Config.AdditionalNTPSources ac
       | None => []
       end.

(** Every byte of [s] belongs to [cutset]. *)
Fixpoint onlyCutset (cutset s : string) : bool :=
  match s with
  | EmptyString => true
  | String c rest => gostrings.inCutset cutset c && onlyCutset cutset rest
  end.

(** ** A reference instance of the collaborators

    Documents are trees of mappings, scalars and sequences, the object
    model that sigs.k8s.io/yaml decodes from.  The codec below writes the
    manifest under the field names of its schema and reads it back
    strictly; it shows that [YAMLContract] can be met and gives the
    concrete scenarios something to run on. *)

Module ref.

#[warnings="-register-all"]
Inductive node : Type :=
| Scalar (s : string)
| Sequence (items : list string)
| Mapping (fields : list (string * node)).

Definition field (k : string) (fs : list (string * node)) : option node :=
  snd <$> List.find (fun kv => String.eqb (fst kv) k) fs.

(** Some key of [fs] is not among [known]. *)
Definition strayKey (known : list string) (fs : list (string * node)) : bool :=
  existsb (fun kv => negb (existsb (String.eqb (fst kv)) known)) fs.

(** The fields of a mapping found under [k]; nothing when [k] is absent
    or holds something else. *)
Definition sub (k : string) (fs : list (string * node)) : list (string * node) :=
  match field k fs with
  | Some (Mapping inner) => inner
  | _ => []
  end.

Definition metaKeys : list string := ["name"; "namespace"].
Definition refKeys : list string := ["name"; "namespace"].
Definition secretKeys : list string := ["name"].
Definition selectorKeys : list string := ["matchLabels"].
Definition proxyKeys : list string := ["httpProxy"; "httpsProxy"; "noProxy"].
Definition specKeys : list string :=
  ["clusterRef"; "sshAuthorizedKey"; "pullSecretRef"; "nmStateConfigLabelSelector";
   "cpuArchitecture"; "proxy"; "additionalNTPSources"].
Definition topKeys : list string := ["metadata"; "spec"].

(** A mapping of the document, at a place the schema describes, has a
    key the schema does not have.  (The keys under matchLabels are free.) *)
Definition unknownField (doc : node) : bool :=
  match doc with
  | Mapping top =>
      strayKey topKeys top
      || strayKey metaKeys (sub "metadata" top)
      || strayKey specKeys (sub "spec" top)
      || strayKey refKeys (sub "clusterRef" (sub "spec" top))
      || strayKey secretKeys (sub "pullSecretRef" (sub "spec" top))
      || strayKey selectorKeys (sub "nmStateConfigLabelSelector" (sub "spec" top))
      || strayKey proxyKeys (sub "proxy" (sub "spec" top))
  | _ => false
  end.

(** *** Writing *)

Definition encodeLabels (labels : gmap string string) : list (string * node) :=
  (fun kv => (fst kv, Scalar (snd kv))) <$> map_to_list labels.

Definition encodeOptional {A : Type} (k : string) (enc : A -> node) (o : option A)
  : list (string * node) :=
  match o with
  | Some a => [(k, enc a)]
  | None => []
  end.

Definition encodeClusterRef (r : aiv1beta1.ClusterReference.t) : node :=
  Mapping [("name", Scalar (aiv1beta1.ClusterReference.Name r));
           ("namespace", Scalar (aiv1beta1.ClusterReference.Namespace r))].

Definition encodeSecretRef (r : corev1.LocalObjectReference.t) : node :=
  Mapping [("name", Scalar (corev1.LocalObjectReference.Name r))].

Definition encodeProxy (p : aiv1beta1.Proxy.t) : node :=
  Mapping [("httpProxy", Scalar (aiv1beta1.Proxy.HTTPProxy p));
           ("httpsProxy", Scalar (aiv1beta1.Proxy.HTTPSProxy p));
           ("noProxy", Scalar (aiv1beta1.Proxy.NoProxy p))].

Definition encodeSpec (s : aiv1beta1.InfraEnvSpec.t) : node :=
  Mapping
    (encodeOptional "clusterRef" encodeClusterRef (aiv1beta1.InfraEnvSpec.ClusterRef s)
     ++ [("sshAuthorizedKey", Scalar (aiv1beta1.InfraEnvSpec.SSHAuthorizedKey s))]
     ++ encodeOptional "pullSecretRef" encodeSecretRef (aiv1beta1.InfraEnvSpec.PullSecretRef s)
     ++ [("nmStateConfigLabelSelector",
          Mapping [("matchLabels",
                    Mapping (encodeLabels
                               (metav1.LabelSelector.MatchLabels
                                  (aiv1beta1.InfraEnvSpec.NMStateConfigLabelSelector s))))]);
         ("cpuArchitecture", Scalar (aiv1beta1.InfraEnvSpec.CpuArchitecture s))]
     ++ encodeOptional "proxy" encodeProxy (aiv1beta1.InfraEnvSpec.Proxy s)
     ++ [("additionalNTPSources", Sequence (aiv1beta1.InfraEnvSpec.AdditionalNTPSources s))]).

Definition encode (m : aiv1beta1.InfraEnv.t) : node :=
  Mapping
    [("metadata",
      Mapping [("name", Scalar (metav1.ObjectMeta.Name (aiv1beta1.InfraEnv.ObjectMeta m)));
               ("namespace",
                Scalar (metav1.ObjectMeta.Namespace (aiv1beta1.InfraEnv.ObjectMeta m)))]);
     ("spec", encodeSpec (aiv1beta1.InfraEnv.Spec m))].

(** *** Reading *)

Definition typeError (k : string) : error :=
  errors.External ("cannot unmarshal field " ++ k).

(** A string field: the zero value when absent. *)
Definition scalar (k : string) (fs : list (string * node)) : result string :=
  match field k fs with
  | None => Ok ""
  | Some (Scalar s) => Ok s
  | Some _ => Err (typeError k)
  end.

Definition sequence (k : string) (fs : list (string * node)) : result (list string) :=
  match field k fs with
  | None => Ok []
  | Some (Sequence l) => Ok l
  | Some _ => Err (typeError k)
  end.

(** A nested object behind a pointer: nil when absent. *)
Definition optional {A : Type} (k : string) (dec : list (string * node) -> result A)
    (fs : list (string * node)) : result (option A) :=
  match field k fs with
  | None => Ok None
  | Some (Mapping inner) => a ← dec inner; Ok (Some a)
  | Some _ => Err (typeError k)
  end.

Fixpoint decodeLabels (fs : list (string * node)) : result (gmap string string) :=
  match fs with
  | [] => Ok ∅
  | (k, Scalar v) :: rest => m ← decodeLabels rest; Ok (<[k := v]> m)
  | (k, _) :: _ => Err (typeError k)
  end.

Definition decodeMeta (fs : list (string * node)) : result metav1.ObjectMeta.t :=
  name ← scalar "name" fs;
  namespace ← scalar "namespace" fs;
  Ok (metav1.ObjectMeta.mk name namespace).

Definition decodeClusterRef (fs : list (string * node)) : result aiv1beta1.ClusterReference.t :=
  name ← scalar "name" fs;
  namespace ← scalar "namespace" fs;
  Ok (aiv1beta1.ClusterReference.mk name namespace).

Definition decodeSecretRef (fs : list (string * node))
  : result corev1.LocalObjectReference.t :=
  name ← scalar "name" fs;
  Ok (corev1.LocalObjectReference.mk name).

Definition decodeProxy (fs : list (string * node)) : result aiv1beta1.Proxy.t :=
  http ← scalar "httpProxy" fs;
  https ← scalar "httpsProxy" fs;
  no ← scalar "noProxy" fs;
  Ok (aiv1beta1.Proxy.mk http https no).

Definition decodeSelector (fs : list (string * node)) : result metav1.LabelSelector.t :=
  match field "matchLabels" fs with
  | None => Ok (metav1.LabelSelector.mk ∅)
  | Some (Mapping labels) => m ← decodeLabels labels; Ok (metav1.LabelSelector.mk m)
  | Some _ => Err (typeError "matchLabels")
  end.

Definition decodeSpec (fs : list (string * node)) : result aiv1beta1.InfraEnvSpec.t :=
  clusterRef ← optional "clusterRef" decodeClusterRef fs;
  key ← scalar "sshAuthorizedKey" fs;
  pullSecretRef ← optional "pullSecretRef" decodeSecretRef fs;
  selector ← decodeSelector (sub "nmStateConfigLabelSelector" fs);
  cpu ← scalar "cpuArchitecture" fs;
  proxy ← optional "proxy" decodeProxy fs;
  ntp ← sequence "additionalNTPSources" fs;
  Ok (aiv1beta1.InfraEnvSpec.mk clusterRef key pullSecretRef selector cpu proxy ntp).

(** Strict decoding: a document with a field outside the schema is an
    error, whatever else it holds. *)
Definition decodeStrict (doc : node) : result aiv1beta1.InfraEnv.t :=
  if unknownField doc then Err (errors.External "unknown field")
  else
    match doc with
    | Mapping top =>
        meta ← decodeMeta (sub "metadata" top);
        spec ← decodeSpec (sub "spec" top);
        Ok (aiv1beta1.InfraEnv.mk meta spec)
    | _ => Err (typeError "InfraEnv")
    end.

Definition yaml : YAML node := {|
  Marshal m := Ok (encode m);
  UnmarshalStrict := decodeStrict;
  hasUnknownField doc := unknownField doc = true
|}.

(** *** The helpers of package manifests *)

Definition configName (ic : agent.OptionalInstallConfig.t) : string :=
  match agent.OptionalInstallConfig.Config ic with
  | Some c => metav1.ObjectMeta.Name (types.InstallConfig.ObjectMeta c)
  | None => ""
  end.

Definition helpers : Helpers := {|
  clusterManifestDir := "cluster-manifests";
  getInfraEnvName := configName;
  getObjectMetaNamespace ic :=
    match agent.OptionalInstallConfig.Config ic with
    | Some c => metav1.ObjectMeta.Namespace (types.InstallConfig.ObjectMeta c)
    | None => ""
    end;
  getClusterDeploymentName := configName;
  getPullSecretName ic := configName ic ++ "-pull-secret";
  getNMStateConfigLabels ic := {[ "infraenvs.agent-install.openshift.io" := configName ic ]};
  getProxy ic :=
    match agent.OptionalInstallConfig.Config ic with
    | Some c =>
        (fun p => aiv1beta1.Proxy.mk (types.Proxy.HTTPProxy p) (types.Proxy.HTTPSProxy p)
                                     (types.Proxy.NoProxy p))
          <$> types.InstallConfig.Proxy c
    | None => None
    end
|}.

(** The same codec with a [Marshal] that always fails. *)
Definition failingYaml : YAML node := {|
  Marshal _ := Err (errors.External "json: unsupported value");
  UnmarshalStrict := decodeStrict;
  hasUnknownField doc := unknownField doc = true
|}.

End ref.

(** ** Concrete inputs *)

Module scenario.

(** The key material of the concrete scenario: two spaces, a pipe, the
    key, two spaces and a newline. *)
Definition sshKey : string := "  |ssh-rsa AAA...  " ++ String "010" EmptyString.

Definition installConfigWith (controlPlane : option types.MachinePool.t)
  : agent.OptionalInstallConfig.t :=
  agent.OptionalInstallConfig.mk
    (Some (types.InstallConfig.mk (metav1.ObjectMeta.mk "ostest" "cluster0")
                                  sshKey controlPlane None)).

Definition noAgentConfig : agentconfig.AgentConfig.t := agentconfig.AgentConfig.mk None.

(** Install configuration with the control plane on arm64. *)
Definition parents : asset.Parents.t :=
  asset.Parents.mk (installConfigWith (Some (types.MachinePool.mk "arm64"))) noAgentConfig.

(** The same with an architecture outside the supported set. *)
Definition unsupportedParents : asset.Parents.t :=
  asset.Parents.mk (installConfigWith (Some (types.MachinePool.mk "unsupported-value")))
                   noAgentConfig.

(** The same without a control-plane section. *)
Definition nilControlPlaneParents : asset.Parents.t :=
  asset.Parents.mk (installConfigWith None) noAgentConfig.

(** The install-configuration dependency yields no configuration. *)
Definition skipParents : asset.Parents.t :=
  asset.Parents.mk (agent.OptionalInstallConfig.mk None) noAgentConfig.

(** The asset before any call: [&InfraEnv{}]. *)
Definition empty : InfraEnv ref.node := mkInfraEnv None None.

Definition manifestWith (cpu : string) : aiv1beta1.InfraEnv.t :=
  aiv1beta1.InfraEnv.mk
    (metav1.ObjectMeta.mk "ostest" "cluster0")
    (aiv1beta1.InfraEnvSpec.mk
       (Some (aiv1beta1.ClusterReference.mk "ostest" "cluster0"))
       "ssh-rsa AAA..."
       (Some (corev1.LocalObjectReference.mk "ostest-pull-secret"))
       (metav1.LabelSelector.mk ∅) cpu None []).

Definition path : string := "cluster-manifests/infraenv.yaml".

(** A fetcher over a directory holding at most the manifest file. *)
Definition fetcher (onDisk : option ref.node) : asset.FileFetcher.t ref.node :=
  asset.FileFetcher.mk
    (fun name =>
       match onDisk with
       | Some doc => if String.eqb name path then Ok (asset.File.mk name doc)
                     else Err (errors.NotExist name)
       | None => Err (errors.NotExist name)
       end).

(** A document on disk whose spec carries a field the schema lacks. *)
Definition extraFieldDoc : ref.node :=
  ref.Mapping
    [("metadata", ref.Mapping [("name", ref.Scalar "ostest")]);
     ("spec", ref.Mapping [("cpuArchitecture", ref.Scalar "x86_64");
                           ("bootArtifacts", ref.Scalar "yes")])].

(** The manifest Generate builds from [parents]. *)
Definition generatedManifest : aiv1beta1.InfraEnv.t :=
  aiv1beta1.InfraEnv.mk
    (metav1.ObjectMeta.mk "ostest" "cluster0")
    (aiv1beta1.InfraEnvSpec.mk
       (Some (aiv1beta1.ClusterReference.mk "ostest" "cluster0"))
       "  |ssh-rsa AAA...  "
       (Some (corev1.LocalObjectReference.mk "ostest-pull-secret"))
       (metav1.LabelSelector.mk {[ "infraenvs.agent-install.openshift.io" := "ostest" ]})
       "aarch64" None []).

(** The asset after Generate on [parents]. *)
Definition generated : InfraEnv ref.node :=
  mkInfraEnv (Some (asset.File.mk path (ref.encode generatedManifest)))
             (Some generatedManifest).

(** A well-formed document on disk with an architecture outside the
    supported set. *)
Definition unsupportedDoc : ref.node := ref.encode (manifestWith "unsupported-value").

(** A document on disk that still carries the Go name of the architecture. *)
Definition legacyDoc : ref.node := ref.encode (manifestWith "amd64").

(** A fetcher whose storage cannot be read. *)
Definition brokenFetcher : asset.FileFetcher.t ref.node :=
  asset.FileFetcher.mk (fun name => Err (errors.External "permission denied")).

(** The install configuration of [parents]. *)
Definition installConfig : types.InstallConfig.t :=
  types.InstallConfig.mk (metav1.ObjectMeta.mk "ostest" "cluster0")
                         sshKey (Some (types.MachinePool.mk "arm64")) None.

(** A key wrapped in pipes, tabs and newlines only. *)
Definition wrappedKey : string :=
  String "|" (String "010" (String "009" "ssh-rsa AAA..."))
  ++ String "009" (String "010" EmptyString).

(** An install configuration with a proxy and the wrapped key, the
    control plane on ppc64le, and an agent configuration with two time
    sources. *)
Definition fullInstallConfig : types.InstallConfig.t :=
  types.InstallConfig.mk (metav1.ObjectMeta.mk "ostest" "cluster0") wrappedKey
    (Some (types.MachinePool.mk "ppc64le"))
    (Some (types.Proxy.mk "http://proxy:3128" "https://proxy:3128" "localhost")).

Definition fullParents : asset.Parents.t :=
  asset.Parents.mk
    (agent.OptionalInstallConfig.mk (Some fullInstallConfig))
    (agentconfig.AgentConfig.mk
       (Some (agentconfig.Config.mk ["0.pool.ntp.org"; "1.pool.ntp.org"]))).

(** The asset after Load on [legacyDoc]. *)
Definition loaded : InfraEnv ref.node :=
  mkInfraEnv (Some (asset.File.mk path legacyDoc)) (Some (manifestWith "x86_64")).

(** An install configuration whose key has nothing to trim. *)
Definition cleanInstallConfig : types.InstallConfig.t :=
  types.InstallConfig.mk (metav1.ObjectMeta.mk "ostest" "cluster0") "ssh-rsa AAA..."
                         (Some (types.MachinePool.mk "amd64")) None.

Definition cleanParents : asset.Parents.t :=
  asset.Parents.mk (agent.OptionalInstallConfig.mk (Some cleanInstallConfig)) noAgentConfig.

End scenario.

(** * Properties *)

(** ** The normalizer and the validator *)

Lemma RpmArch_empty : arch.RpmArch "" = "".
Proof. reflexivity. Qed.

Lemma supportedArch_iff (a : string) :
  supportedArch a = true <->
  a = "" \/ a = "x86_64" \/ a = "aarch64" \/ a = "ppc64le".
Proof.
  unfold supportedArch.
  change (arch.RpmArch types.ArchitectureAMD64) with "x86_64".
  change (arch.RpmArch types.ArchitectureARM64) with "aarch64".
  change (arch.RpmArch types.ArchitecturePPC64LE) with "ppc64le".
  rewrite !orb_true_iff, !String.eqb_eq. tauto.
Qed.

Lemma RpmArch_supported (a : string) :
  supportedArch a = true -> arch.RpmArch a = a.
Proof.
  intros Hs. apply supportedArch_iff in Hs.
  destruct Hs as [-> | [-> | [-> | ->]]]; reflexivity.
Qed.

(** An unsupported normalized value was not touched by the normalizer. *)
Lemma RpmArch_unsupported (a : string) :
  supportedArch (arch.RpmArch a) = false -> arch.RpmArch a = a.
Proof.
  unfold arch.RpmArch.
  destruct (String.eqb a "amd64"); [discriminate |].
  destruct (String.eqb a "arm64"); [discriminate | reflexivity].
Qed.

(** C7: normalizing twice is normalizing once. *)
Theorem RpmArch_idempotent (x : string) :
  arch.RpmArch (arch.RpmArch x) = arch.RpmArch x.
Proof.
  unfold arch.RpmArch at 2 3.
  destruct (String.eqb x "amd64") eqn:Hamd; [reflexivity |].
  destruct (String.eqb x "arm64") eqn:Harm; [reflexivity |].
  unfold arch.RpmArch. now rewrite Hamd, Harm.
Qed.

Section Properties.

Context {bytes : Type} {helpers : Helpers} {yaml : YAML bytes}.

Implicit Types (i : InfraEnv bytes) (m config : aiv1beta1.InfraEnv.t).

Lemma withCpuArchitecture_same m : withCpuArchitecture (cpuArchitecture m) m = m.
Proof. destruct m as [meta []]. reflexivity. Qed.

Lemma cpuArchitecture_with a m : cpuArchitecture (withCpuArchitecture a m) = a.
Proof. destruct m as [meta []]. reflexivity. Qed.

(** *** finish *)

Lemma finish_missing i :
  Config i = None ->
  finish i = Some (errors.New "missing configuration or manifest file").
Proof. unfold finish. now intros ->. Qed.

Lemma finish_accepts i m :
  Config i = Some m -> supportedArch (cpuArchitecture m) = true -> finish i = None.
Proof. unfold finish, cpuArchitecture. now intros -> ->. Qed.

Lemma finish_rejects i m :
  Config i = Some m -> supportedArch (cpuArchitecture m) = false ->
  finish i = Some (errors.Errorf ("Config.Spec.CpuArchitecture " ++ cpuArchitecture m
                                  ++ " is not supported ")).
Proof. unfold finish, cpuArchitecture. now intros -> ->. Qed.

Lemma finish_None i :
  finish i = None ->
  exists m, Config i = Some m /\ supportedArch (cpuArchitecture m) = true.
Proof.
  unfold finish, cpuArchitecture. destruct (Config i) as [m |]; [| discriminate].
  destruct (supportedArch _) eqn:Hs; [| discriminate]. eauto.
Qed.

(** *** Generate, path by path *)

Lemma Generate_skip (dependencies : asset.Parents.t) i :
  agent.OptionalInstallConfig.Config (asset.Parents.installConfig dependencies) = None ->
  Generate dependencies i = Returned (i, finish i).
Proof. unfold Generate. now intros ->. Qed.

Lemma Generate_nil_ControlPlane (dependencies : asset.Parents.t) i ic :
  agent.OptionalInstallConfig.Config (asset.Parents.installConfig dependencies) = Some ic ->
  types.InstallConfig.ControlPlane ic = None ->
  Generate dependencies i = Panicked "invalid memory address or nil pointer dereference".
Proof. unfold Generate. now intros -> ->. Qed.

(** With a configuration and a control-plane section, Generate builds a
    manifest [m], stores it, and goes on to serialize and validate it. *)
Lemma Generate_build (dependencies : asset.Parents.t) i ic controlPlane :
  agent.OptionalInstallConfig.Config (asset.Parents.installConfig dependencies) = Some ic ->
  types.InstallConfig.ControlPlane ic = Some controlPlane ->
  exists m,
    sshAuthorizedKey m = gostrings.Trim (types.InstallConfig.SSHKey ic) sshKeyCutset
    /\ cpuArchitecture m = arch.RpmArch (types.MachinePool.Architecture controlPlane)
    /\ Generate dependencies i =
       match Marshal m with
       | Err err =>
           Returned (mkInfraEnv (File i) (Some m),
                     Some (errors.Wrap err "failed to marshal agent installer infraEnv"))
       | Ok data =>
           Returned (mkInfraEnv (Some (asset.File.mk infraEnvFilename data)) (Some m),
                     finish (mkInfraEnv (Some (asset.File.mk infraEnvFilename data)) (Some m)))
       end.
Proof.
  intros Hic Hcp. unfold Generate. rewrite Hic, Hcp.
  eexists. split; [| split; [| reflexivity]].
  - destruct (negb _), (types.InstallConfig.Proxy ic),
      (agentconfig.AgentConfig.Config _); reflexivity.
  - destruct (String.eqb (types.MachinePool.Architecture controlPlane) "") eqn:Hempty.
    + apply String.eqb_eq in Hempty. rewrite Hempty.
      destruct (types.InstallConfig.Proxy ic), (agentconfig.AgentConfig.Config _);
        reflexivity.
    + destruct (types.InstallConfig.Proxy ic), (agentconfig.AgentConfig.Config _);
        reflexivity.
Qed.

(** Generate returns unless it is handed a configuration without a
    control-plane section. *)
Lemma Generate_returns (dependencies : asset.Parents.t) i :
  (forall ic,
      agent.OptionalInstallConfig.Config (asset.Parents.installConfig dependencies) = Some ic ->
      types.InstallConfig.ControlPlane ic <> None) ->
  returns (Generate dependencies i).
Proof.
  intros Hcp.
  destruct (agent.OptionalInstallConfig.Config (asset.Parents.installConfig dependencies))
    as [ic |] eqn:Hic.
  - destruct (types.InstallConfig.ControlPlane ic) as [controlPlane |] eqn:Hc.
    + destruct (Generate_build dependencies i ic controlPlane Hic Hc) as (m & _ & _ & ->).
      destruct (Marshal m); eexists; reflexivity.
    + now destruct (Hcp ic eq_refl).
  - rewrite Generate_skip by assumption. eexists; reflexivity.
Qed.

(** *** Load, path by path *)

Lemma Load_fetch_error (f : asset.FileFetcher.t bytes) i err :
  asset.FileFetcher.FetchByName f infraEnvFilename = Err err ->
  Load f i =
  (i, (false,
       if os.IsNotExist err then None
       else Some (errors.Wrap err ("failed to load " ++ infraEnvFilename ++ " file")))).
Proof. unfold Load. intros ->. now destruct (os.IsNotExist err). Qed.

Lemma Load_decode_error (f : asset.FileFetcher.t bytes) i file err :
  asset.FileFetcher.FetchByName f infraEnvFilename = Ok file ->
  UnmarshalStrict (asset.File.Data file) = Err err ->
  Load f i = (i, (false, Some (errors.Wrapf err ("failed to unmarshal " ++ infraEnvFilename)))).
Proof. unfold Load. now intros -> ->. Qed.

(** After a successful fetch and decode the asset holds the file and the
    decoded manifest with its architecture normalized; the validator
    decides the result. *)
Lemma Load_decoded (f : asset.FileFetcher.t bytes) i file config :
  asset.FileFetcher.FetchByName f infraEnvFilename = Ok file ->
  UnmarshalStrict (asset.File.Data file) = Ok config ->
  Load f i =
  (mkInfraEnv (Some file)
              (Some (withCpuArchitecture (arch.RpmArch (cpuArchitecture config)) config)),
   match finish (mkInfraEnv (Some file)
                   (Some (withCpuArchitecture (arch.RpmArch (cpuArchitecture config)) config)))
   with
   | Some err => (false, Some err)
   | None => (true, None)
   end).
Proof.
  intros Hfetch Hdec. unfold Load. rewrite Hfetch, Hdec.
  fold (cpuArchitecture config).
  destruct (String.eqb (cpuArchitecture config) "") eqn:Hempty; cbn [negb].
  - apply String.eqb_eq in Hempty.
    assert (Hsame : withCpuArchitecture (arch.RpmArch (cpuArchitecture config)) config = config).
    { rewrite Hempty, RpmArch_empty, <- Hempty. apply withCpuArchitecture_same. }
    rewrite Hsame. now destruct (finish _).
  - fold (withCpuArchitecture (arch.RpmArch (cpuArchitecture config)) config).
    now destruct (finish _).
Qed.

Lemma Load_rejected (f : asset.FileFetcher.t bytes) i file config :
  asset.FileFetcher.FetchByName f infraEnvFilename = Ok file ->
  UnmarshalStrict (asset.File.Data file) = Ok config ->
  supportedArch (arch.RpmArch (cpuArchitecture config)) = false ->
  Load f i =
  (mkInfraEnv (Some file) (Some config),
   (false, Some (errors.Errorf ("Config.Spec.CpuArchitecture " ++ cpuArchitecture config
                                ++ " is not supported ")))).
Proof.
  intros Hfetch Hdec Hbad. rewrite (Load_decoded f i file config Hfetch Hdec).
  pose proof (RpmArch_unsupported _ Hbad) as Hsame. rewrite Hsame in *.
  rewrite withCpuArchitecture_same.
  now rewrite (finish_rejects (mkInfraEnv (Some file) (Some config)) config eq_refl Hbad).
Qed.

(** *** The claims about the asset *)

(** C1 (amended): when the install-configuration dependency yields no
    configuration, Generate builds nothing and hands the asset to
    [finish]; on an asset that holds nothing yet, [finish] reports the
    missing configuration, so Generate returns that error, and the asset
    still has no file: [Files] is empty. *)
Theorem Generate_skip_reports_missing (dependencies : asset.Parents.t) i :
  agent.OptionalInstallConfig.Config (asset.Parents.installConfig dependencies) = None ->
  File i = None ->
  Config i = None ->
  Generate dependencies i
  = Returned (i, Some (errors.New "missing configuration or manifest file"))
  /\ Files i = [].
Proof.
  intros Hskip Hfile Hconfig. split.
  - rewrite Generate_skip by assumption. now rewrite finish_missing.
  - unfold Files. now rewrite Hfile.
Qed.

(** C4: when the fetcher reports that the file does not exist, Load
    returns (false, nil) and leaves the asset as it was; in particular
    File and Config stay unset on an asset that had them unset. *)
Theorem Load_not_found (f : asset.FileFetcher.t bytes) i err :
  asset.FileFetcher.FetchByName f infraEnvFilename = Err err ->
  os.IsNotExist err = true ->
  Load f i = (i, (false, None))
  /\ (File i = None -> Config i = None ->
      File (fst (Load f i)) = None /\ Config (fst (Load f i)) = None).
Proof.
  intros Hfetch Hne.
  assert (Hload : Load f i = (i, (false, None))).
  { rewrite (Load_fetch_error f i err Hfetch). now rewrite Hne. }
  split; [exact Hload |]. rewrite Hload. cbn. tauto.
Qed.

(** C5: when the fetched bytes carry a field outside the manifest's
    schema, strict decoding fails, Load returns false with that error
    wrapped, and the asset is left as it was: File and Config stay unset
    on an asset that had them unset. *)
Theorem Load_unknown_field `{!YAMLContract bytes}
    (f : asset.FileFetcher.t bytes) i file :
  asset.FileFetcher.FetchByName f infraEnvFilename = Ok file ->
  hasUnknownField (asset.File.Data file) ->
  exists err,
    UnmarshalStrict (asset.File.Data file) = Err err
    /\ Load f i
       = (i, (false, Some (errors.Wrapf err ("failed to unmarshal " ++ infraEnvFilename))))
    /\ (File i = None -> Config i = None ->
        File (fst (Load f i)) = None /\ Config (fst (Load f i)) = None).
Proof.
  intros Hfetch Hunknown.
  destruct (UnmarshalStrict_unknown _ Hunknown) as [err Herr].
  exists err. rewrite (Load_decode_error f i file err Hfetch Herr).
  cbn. tauto.
Qed.

(** C6: a Generate that returns no error, and a Load that reports a
    manifest without error, leave a manifest whose CpuArchitecture is
    empty or one of the three RPM names x86_64, aarch64, ppc64le (those of
    amd64, arm64 and ppc64le); with any other value the validator fails. *)
Theorem validated_architecture :
  (arch.RpmArch types.ArchitectureAMD64 = "x86_64"
   /\ arch.RpmArch types.ArchitectureARM64 = "aarch64"
   /\ arch.RpmArch types.ArchitecturePPC64LE = "ppc64le")
  /\ (forall (dependencies : asset.Parents.t) i i',
         Generate dependencies i = Returned (i', None) ->
         exists m, Config i' = Some m
                   /\ (cpuArchitecture m = "" \/ cpuArchitecture m = "x86_64"
                       \/ cpuArchitecture m = "aarch64" \/ cpuArchitecture m = "ppc64le"))
  /\ (forall (f : asset.FileFetcher.t bytes) i i',
         Load f i = (i', (true, None)) ->
         exists m, Config i' = Some m
                   /\ (cpuArchitecture m = "" \/ cpuArchitecture m = "x86_64"
                       \/ cpuArchitecture m = "aarch64" \/ cpuArchitecture m = "ppc64le"))
  /\ (forall i m,
         Config i = Some m ->
         ~ (cpuArchitecture m = "" \/ cpuArchitecture m = "x86_64"
            \/ cpuArchitecture m = "aarch64" \/ cpuArchitecture m = "ppc64le") ->
         exists err, finish i = Some err).
Proof.
  split; [now repeat split |]. split; [| split].
  - intros dependencies i i' Hgen.
    assert (Hfin : finish i' = None).
    { destruct (agent.OptionalInstallConfig.Config (asset.Parents.installConfig dependencies))
        as [ic |] eqn:Hic.
      - destruct (types.InstallConfig.ControlPlane ic) as [controlPlane |] eqn:Hcp.
        + destruct (Generate_build dependencies i ic controlPlane Hic Hcp)
            as (m & _ & _ & Heq).
          rewrite Heq in Hgen. destruct (Marshal m); now inversion Hgen.
        + now rewrite (Generate_nil_ControlPlane dependencies i ic Hic Hcp) in Hgen.
      - rewrite Generate_skip in Hgen by assumption. now inversion Hgen. }
    destruct (finish_None i' Hfin) as (m & Hm & Hs).
    exists m. split; [exact Hm | now apply supportedArch_iff].
  - intros f i i' Hload.
    assert (Hfin : finish i' = None).
    { destruct (asset.FileFetcher.FetchByName f infraEnvFilename) as [file | err] eqn:Hfetch.
      - destruct (UnmarshalStrict (asset.File.Data file)) as [config | err] eqn:Hdec.
        + rewrite (Load_decoded f i file config Hfetch Hdec) in Hload.
          destruct (finish _) eqn:Hfin; inversion Hload; subst. exact Hfin.
        + rewrite (Load_decode_error f i file err Hfetch Hdec) in Hload. inversion Hload.
      - rewrite (Load_fetch_error f i err Hfetch) in Hload. inversion Hload. }
    destruct (finish_None i' Hfin) as (m & Hm & Hs).
    exists m. split; [exact Hm | now apply supportedArch_iff].
  - intros i m Hm Hnot.
    destruct (supportedArch (cpuArchitecture m)) eqn:Hs.
    + now apply supportedArch_iff in Hs.
    + rewrite (finish_rejects i m Hm Hs). eauto.
Qed.

(** C10: when fetch and strict decoding succeed and the validator
    rejects the architecture, Load returns false with an error, and the
    asset keeps the file and the manifest read from disk. *)
Theorem Load_rejected_keeps_state (f : asset.FileFetcher.t bytes) i file config :
  asset.FileFetcher.FetchByName f infraEnvFilename = Ok file ->
  UnmarshalStrict (asset.File.Data file) = Ok config ->
  supportedArch (arch.RpmArch (cpuArchitecture config)) = false ->
  exists i' err,
    Load f i = (i', (false, Some err))
    /\ File i' = Some file
    /\ Config i' = Some config.
Proof.
  intros Hfetch Hdec Hbad.
  rewrite (Load_rejected f i file config Hfetch Hdec Hbad). eauto.
Qed.

(** C3 (amended): when the architecture of the manifest, as it reaches
    the validator, is outside the supported set, Generate and Load both
    return an error; the asset is not reset: it keeps the manifest and
    the file, so [Files] still returns that one file. *)
Theorem unsupported_architecture_is_reported :
  (forall (dependencies : asset.Parents.t) i ic controlPlane,
      agent.OptionalInstallConfig.Config (asset.Parents.installConfig dependencies) = Some ic ->
      types.InstallConfig.ControlPlane ic = Some controlPlane ->
      supportedArch (arch.RpmArch (types.MachinePool.Architecture controlPlane)) = false ->
      exists i' err m,
        Generate dependencies i = Returned (i', Some err)
        /\ Config i' = Some m
        /\ cpuArchitecture m = arch.RpmArch (types.MachinePool.Architecture controlPlane)
        /\ forall data, Marshal m = Ok data ->
                        Files i' = [asset.File.mk infraEnvFilename data])
  /\ (forall (f : asset.FileFetcher.t bytes) i file config,
         asset.FileFetcher.FetchByName f infraEnvFilename = Ok file ->
         UnmarshalStrict (asset.File.Data file) = Ok config ->
         supportedArch (arch.RpmArch (cpuArchitecture config)) = false ->
         exists i' err,
           Load f i = (i', (false, Some err))
           /\ Config i' = Some config
           /\ Files i' = [file]).
Proof.
  split.
  - intros dependencies i ic controlPlane Hic Hcp Hbad.
    destruct (Generate_build dependencies i ic controlPlane Hic Hcp)
      as (m & _ & Hcpu & Heq).
    rewrite <- Hcpu in Hbad.
    destruct (Marshal m) as [data | err] eqn:Hm.
    + rewrite (finish_rejects (mkInfraEnv _ _) m eq_refl Hbad) in Heq.
      eexists _, _, m. split; [exact Heq |].
      split; [reflexivity |]. split; [exact Hcpu |].
      intros data' Hd. rewrite Hm in Hd. now inversion Hd.
    + eexists _, _, m. split; [exact Heq |].
      split; [reflexivity |]. split; [exact Hcpu |].
      intros data' Hd. rewrite Hm in Hd. discriminate Hd.
  - intros f i file config Hfetch Hdec Hbad.
    rewrite (Load_rejected f i file config Hfetch Hdec Hbad). eauto.
Qed.

(** C8: write a manifest and read the bytes back as Load does, and the
    asset holds that manifest with its architecture normalized once more;
    after a Generate that returned no error the architecture is already
    normalized, strict decoding of the file gives the manifest back, and
    Load restores exactly the generated asset. *)
Theorem Generate_Load_roundtrip `{!YAMLContract bytes} :
  (forall m data (f : asset.FileFetcher.t bytes) j,
      Marshal m = Ok data ->
      asset.FileFetcher.FetchByName f infraEnvFilename
      = Ok (asset.File.mk infraEnvFilename data) ->
      UnmarshalStrict data = Ok m
      /\ Config (fst (Load f j))
         = Some (withCpuArchitecture (arch.RpmArch (cpuArchitecture m)) m))
  /\ (forall (dependencies : asset.Parents.t) i i' ic m file,
         agent.OptionalInstallConfig.Config (asset.Parents.installConfig dependencies)
         = Some ic ->
         Generate dependencies i = Returned (i', None) ->
         Config i' = Some m ->
         File i' = Some file ->
         UnmarshalStrict (asset.File.Data file) = Ok m
         /\ withCpuArchitecture (arch.RpmArch (cpuArchitecture m)) m = m
         /\ forall (f : asset.FileFetcher.t bytes) j,
              asset.FileFetcher.FetchByName f infraEnvFilename = Ok file ->
              Load f j = (i', (true, None))).
Proof.
  split.
  - intros m data f j Hm Hfetch.
    pose proof (UnmarshalStrict_Marshal m data Hm) as Hdec.
    split; [exact Hdec |].
    now rewrite (Load_decoded f j _ m Hfetch Hdec).
  - intros dependencies i i' ic m file Hic Hgen Hconfig Hfile.
    destruct (types.InstallConfig.ControlPlane ic) as [controlPlane |] eqn:Hcp.
    2: now rewrite (Generate_nil_ControlPlane dependencies i ic Hic Hcp) in Hgen.
    destruct (Generate_build dependencies i ic controlPlane Hic Hcp) as (m0 & _ & _ & Heq).
    rewrite Heq in Hgen. destruct (Marshal m0) as [data | err] eqn:Hm; [| now inversion Hgen].
    inversion Hgen as [[Hi' Hfin]]. rewrite <- Hi' in Hconfig, Hfile.
    cbn in Hconfig, Hfile. inversion Hconfig; inversion Hfile; subst m0 file. clear Hconfig Hfile.
    destruct (finish_None _ Hfin) as (m' & Hm' & Hs). cbn in Hm'. inversion Hm'; subst m'.
    pose proof (UnmarshalStrict_Marshal m data Hm) as Hdec.
    assert (Hsame : withCpuArchitecture (arch.RpmArch (cpuArchitecture m)) m = m).
    { rewrite (RpmArch_supported _ Hs). apply withCpuArchitecture_same. }
    repeat split; [exact Hdec | exact Hsame |].
    intros f j Hfetch.
    rewrite (Load_decoded f j _ m Hfetch Hdec), Hsame.
    now rewrite (finish_accepts (mkInfraEnv _ _) m eq_refl Hs).
Qed.

(** C2 (amended): for the install configuration whose SSH key is two
    spaces, a pipe, the key, two spaces and a newline, and whose
    control-plane architecture is arm64, the manifest Generate builds has
    the key with only the newline trimmed (the spaces are not in the
    cutset and shield the pipe) and the architecture aarch64; once it is
    serialized, Generate returns no error and strict decoding of the file
    reproduces the two values. *)
Theorem scenario_key_and_architecture `{!YAMLContract bytes}
    (dependencies : asset.Parents.t) i ic controlPlane :
  agent.OptionalInstallConfig.Config (asset.Parents.installConfig dependencies) = Some ic ->
  types.InstallConfig.SSHKey ic = scenario.sshKey ->
  types.InstallConfig.ControlPlane ic = Some controlPlane ->
  types.MachinePool.Architecture controlPlane = "arm64" ->
  exists i' err m,
    Generate dependencies i = Returned (i', err)
    /\ Config i' = Some m
    /\ sshAuthorizedKey m = "  |ssh-rsa AAA...  "
    /\ cpuArchitecture m = "aarch64"
    /\ forall data,
         Marshal m = Ok data ->
         err = None
         /\ File i' = Some (asset.File.mk infraEnvFilename data)
         /\ exists m',
              UnmarshalStrict data = Ok m'
              /\ sshAuthorizedKey m' = "  |ssh-rsa AAA...  "
              /\ cpuArchitecture m' = "aarch64".
Proof.
  intros Hic Hkey Hcp Harch.
  destruct (Generate_build dependencies i ic controlPlane Hic Hcp) as (m & Hssh & Hcpu & Heq).
  rewrite Hkey in Hssh. rewrite Harch in Hcpu.
  change (gostrings.Trim scenario.sshKey sshKeyCutset) with "  |ssh-rsa AAA...  " in Hssh.
  change (arch.RpmArch "arm64") with "aarch64" in Hcpu.
  assert (Hs : supportedArch (cpuArchitecture m) = true) by now rewrite Hcpu.
  destruct (Marshal m) as [data | err] eqn:Hm.
  - rewrite (finish_accepts (mkInfraEnv _ _) m eq_refl Hs) in Heq.
    eexists _, _, m. split; [exact Heq |].
    split; [reflexivity |]. split; [exact Hssh |]. split; [exact Hcpu |].
    intros data' Hd. rewrite Hm in Hd. inversion Hd; subst data'.
    split; [reflexivity |]. split; [reflexivity |].
    exists m. split; [now apply UnmarshalStrict_Marshal |]. now split.
  - eexists _, _, m. split; [exact Heq |].
    split; [reflexivity |]. split; [exact Hssh |]. split; [exact Hcpu |].
    intros data' Hd. rewrite Hm in Hd. discriminate Hd.
Qed.

End Properties.

(** ** The reference collaborators meet the contract *)

Lemma ref_decodeLabels_list (l : list (string * string)) :
  ref.decodeLabels ((fun kv => (fst kv, ref.Scalar (snd kv))) <$> l) = Ok (list_to_map l).
Proof.
  induction l as [| [k v] l IH]; [reflexivity |].
  cbn [fmap list_fmap fst snd ref.decodeLabels]. now rewrite IH.
Qed.

Lemma ref_decodeLabels_encodeLabels (labels : gmap string string) :
  ref.decodeLabels (ref.encodeLabels labels) = Ok labels.
Proof.
  unfold ref.encodeLabels. rewrite ref_decodeLabels_list.
  now rewrite list_to_map_to_list.
Qed.

Lemma ref_unknownField_encode (m : aiv1beta1.InfraEnv.t) :
  ref.unknownField (ref.encode m) = false.
Proof.
  destruct m as [meta [clusterRef key pullSecretRef selector cpu proxy ntp]].
  destruct clusterRef, pullSecretRef, proxy; reflexivity.
Qed.

Lemma ref_decodeStrict_encode (m : aiv1beta1.InfraEnv.t) :
  ref.decodeStrict (ref.encode m) = Ok m.
Proof.
  unfold ref.decodeStrict. rewrite ref_unknownField_encode.
  destruct m as [[name namespace] [clusterRef key pullSecretRef [labels] cpu proxy ntp]].
  destruct clusterRef as [[] |], pullSecretRef as [[] |], proxy as [[] |];
    cbv -[ref.decodeLabels ref.encodeLabels];
    now rewrite ref_decodeLabels_encodeLabels.
Qed.

Lemma ref_contract : YAMLContract ref.node (yaml := ref.yaml).
Proof.
  split.
  - intros m data Hm. cbn in Hm. inversion Hm. apply ref_decodeStrict_encode.
  - intros data Hunknown. cbn in Hunknown |- *.
    unfold ref.decodeStrict. rewrite Hunknown. eauto.
Qed.

(** ** The claims on the concrete inputs *)

(** The skip scenario: no configuration, an asset that holds nothing. *)
Lemma Generate_skip_reports_missing_witness :
  Generate (helpers := ref.helpers) (yaml := ref.yaml) scenario.skipParents scenario.empty
  = Returned (scenario.empty, Some (errors.New "missing configuration or manifest file"))
  /\ Files scenario.empty = [].
Proof.
  apply (@Generate_skip_reports_missing ref.node ref.helpers ref.yaml
           scenario.skipParents scenario.empty); reflexivity.
Defined.

(** C1 as stated fails on the skip scenario: Generate does not return a
    nil error there. *)
Lemma Generate_skip_is_an_error :
  agent.OptionalInstallConfig.Config (asset.Parents.installConfig scenario.skipParents) = None
  /\ ~ (exists i',
          Generate (helpers := ref.helpers) (yaml := ref.yaml)
                   scenario.skipParents scenario.empty = Returned (i', None)
          /\ Files i' = []).
Proof.
  split; [reflexivity |]. intros (i' & Hgen & _). discriminate Hgen.
Qed.

(** C2 as stated fails on its own scenario: the generated key is not the
    bare key, the leading spaces and pipe and the trailing spaces stay. *)
Lemma scenario_key_is_not_bare :
  Generate (helpers := ref.helpers) (yaml := ref.yaml) scenario.parents scenario.empty
  = Returned (scenario.generated, None)
  /\ Config scenario.generated = Some scenario.generatedManifest
  /\ sshAuthorizedKey scenario.generatedManifest = "  |ssh-rsa AAA...  "
  /\ sshAuthorizedKey scenario.generatedManifest <> "ssh-rsa AAA...".
Proof.
  split; [reflexivity |]. split; [reflexivity |]. split; [reflexivity |]. discriminate.
Qed.

Lemma scenario_key_and_architecture_witness :
  exists i' err m,
    Generate (helpers := ref.helpers) (yaml := ref.yaml) scenario.parents scenario.empty
    = Returned (i', err)
    /\ Config i' = Some m
    /\ sshAuthorizedKey m = "  |ssh-rsa AAA...  "
    /\ cpuArchitecture m = "aarch64"
    /\ forall data,
         Marshal (YAML := ref.yaml) m = Ok data ->
         err = None
         /\ File i' = Some (asset.File.mk (infraEnvFilename (helpers := ref.helpers)) data)
         /\ exists m',
              UnmarshalStrict (YAML := ref.yaml) data = Ok m'
              /\ sshAuthorizedKey m' = "  |ssh-rsa AAA...  "
              /\ cpuArchitecture m' = "aarch64".
Proof.
  apply (@scenario_key_and_architecture ref.node ref.helpers ref.yaml ref_contract
           scenario.parents scenario.empty
           (types.InstallConfig.mk (metav1.ObjectMeta.mk "ostest" "cluster0")
                                   scenario.sshKey (Some (types.MachinePool.mk "arm64")) None)
           (types.MachinePool.mk "arm64")); reflexivity.
Defined.

(** C3 as stated fails on the unsupported architecture: Generate returns
    the error, and [Files] still returns the file it had written. *)
Lemma unsupported_Generate_keeps_file :
  exists i' err,
    Generate (helpers := ref.helpers) (yaml := ref.yaml)
             scenario.unsupportedParents scenario.empty = Returned (i', Some err)
    /\ cpuArchitecture <$> Config i' = Some "unsupported-value"
    /\ Files i' <> [].
Proof.
  eexists _, _. split; [reflexivity |]. split; [reflexivity |]. discriminate.
Qed.

Lemma unsupported_architecture_is_reported_witness :
  (exists i' err m,
      Generate (helpers := ref.helpers) (yaml := ref.yaml)
               scenario.unsupportedParents scenario.empty = Returned (i', Some err)
      /\ Config i' = Some m
      /\ cpuArchitecture m = "unsupported-value"
      /\ forall data, Marshal (YAML := ref.yaml) m = Ok data ->
                      Files i' = [asset.File.mk scenario.path data])
  /\ (exists i' err,
         Load (helpers := ref.helpers) (yaml := ref.yaml)
              (scenario.fetcher (Some scenario.unsupportedDoc)) scenario.empty
         = (i', (false, Some err))
         /\ Config i' = Some (scenario.manifestWith "unsupported-value")
         /\ Files i' = [asset.File.mk scenario.path scenario.unsupportedDoc]).
Proof.
  destruct (@unsupported_architecture_is_reported ref.node ref.helpers ref.yaml)
    as [Hgenerate Hload].
  split.
  - apply (Hgenerate scenario.unsupportedParents scenario.empty
             (types.InstallConfig.mk (metav1.ObjectMeta.mk "ostest" "cluster0")
                scenario.sshKey (Some (types.MachinePool.mk "unsupported-value")) None)
             (types.MachinePool.mk "unsupported-value")); reflexivity.
  - apply (Hload (scenario.fetcher (Some scenario.unsupportedDoc)) scenario.empty
             (asset.File.mk scenario.path scenario.unsupportedDoc)
             (scenario.manifestWith "unsupported-value")); reflexivity.
Defined.

(** Nothing on disk: the fetcher reports that the file does not exist. *)
Lemma Load_not_found_witness :
  os.IsNotExist (errors.NotExist scenario.path) = true
  /\ Load (helpers := ref.helpers) (yaml := ref.yaml) (scenario.fetcher None) scenario.empty
     = (scenario.empty, (false, None)).
Proof.
  split; [reflexivity |].
  apply (@Load_not_found ref.node ref.helpers ref.yaml (scenario.fetcher None)
           scenario.empty (errors.NotExist scenario.path)); reflexivity.
Defined.

(** A document with a stray field under spec. *)
Lemma Load_unknown_field_witness :
  ref.unknownField scenario.extraFieldDoc = true
  /\ exists err,
       ref.decodeStrict scenario.extraFieldDoc = Err err
       /\ Load (helpers := ref.helpers) (yaml := ref.yaml)
               (scenario.fetcher (Some scenario.extraFieldDoc)) scenario.empty
          = (scenario.empty,
             (false, Some (errors.Wrapf err ("failed to unmarshal " ++ scenario.path))))
       /\ (File scenario.empty = None -> Config scenario.empty = None ->
           File (fst (Load (helpers := ref.helpers) (yaml := ref.yaml)
                           (scenario.fetcher (Some scenario.extraFieldDoc)) scenario.empty))
           = None
           /\ Config (fst (Load (helpers := ref.helpers) (yaml := ref.yaml)
                                (scenario.fetcher (Some scenario.extraFieldDoc))
                                scenario.empty))
              = None).
Proof.
  split; [reflexivity |].
  apply (@Load_unknown_field ref.node ref.helpers ref.yaml ref_contract
           (scenario.fetcher (Some scenario.extraFieldDoc)) scenario.empty
           (asset.File.mk scenario.path scenario.extraFieldDoc)); reflexivity.
Defined.

(** The generated asset of the scenario passes the validator with
    aarch64; a manifest with another value does not. *)
Lemma validated_architecture_witness :
  (exists m, Config scenario.generated = Some m /\ cpuArchitecture m = "aarch64")
  /\ (exists err,
         finish (mkInfraEnv (bytes := ref.node) None
                            (Some (scenario.manifestWith "unsupported-value")))
         = Some err).
Proof.
  destruct (@validated_architecture ref.node ref.helpers ref.yaml)
    as (_ & Hgenerate & _ & Hfinish).
  split.
  - destruct (Hgenerate scenario.parents scenario.empty scenario.generated eq_refl)
      as (m & Hm & Hcpu).
    exists m. split; [exact Hm |].
    inversion Hm; subst m. reflexivity.
  - apply (Hfinish (mkInfraEnv None (Some (scenario.manifestWith "unsupported-value")))
             (scenario.manifestWith "unsupported-value") eq_refl).
    cbn. intros [H | [H | [H | H]]]; discriminate H.
Defined.

Lemma Load_rejected_keeps_state_witness :
  exists i' err,
    Load (helpers := ref.helpers) (yaml := ref.yaml)
         (scenario.fetcher (Some scenario.unsupportedDoc)) scenario.empty
    = (i', (false, Some err))
    /\ File i' = Some (asset.File.mk scenario.path scenario.unsupportedDoc)
    /\ Config i' = Some (scenario.manifestWith "unsupported-value").
Proof.
  apply (@Load_rejected_keeps_state ref.node ref.helpers ref.yaml
           (scenario.fetcher (Some scenario.unsupportedDoc)) scenario.empty
           (asset.File.mk scenario.path scenario.unsupportedDoc)
           (scenario.manifestWith "unsupported-value")); reflexivity.
Defined.

(** The generated file of the scenario, read back. *)
Lemma Generate_Load_roundtrip_witness :
  ref.decodeStrict (ref.encode scenario.generatedManifest) = Ok scenario.generatedManifest
  /\ withCpuArchitecture (arch.RpmArch (cpuArchitecture scenario.generatedManifest))
                         scenario.generatedManifest
     = scenario.generatedManifest
  /\ Load (helpers := ref.helpers) (yaml := ref.yaml)
          (scenario.fetcher (Some (ref.encode scenario.generatedManifest))) scenario.empty
     = (scenario.generated, (true, None)).
Proof.
  destruct (@Generate_Load_roundtrip ref.node ref.helpers ref.yaml ref_contract)
    as [_ Hgenerated].
  destruct (Hgenerated scenario.parents scenario.empty scenario.generated
              (types.InstallConfig.mk (metav1.ObjectMeta.mk "ostest" "cluster0")
                 scenario.sshKey (Some (types.MachinePool.mk "arm64")) None)
              scenario.generatedManifest
              (asset.File.mk scenario.path (ref.encode scenario.generatedManifest))
              eq_refl eq_refl eq_refl eq_refl)
    as (Hdecode & Hsame & Hload).
  split; [exact Hdecode |]. split; [exact Hsame |].
  apply Hload. reflexivity.
Defined.

(** Load normalizes before it validates: a file that carries the Go name
    amd64, which is not in the supported set, loads as x86_64. *)
Example Load_normalizes_legacy_architecture :
  Load (helpers := ref.helpers) (yaml := ref.yaml)
       (scenario.fetcher (Some scenario.legacyDoc)) scenario.empty
  = (mkInfraEnv (Some (asset.File.mk scenario.path scenario.legacyDoc))
                (Some (scenario.manifestWith "x86_64")),
     (true, None)).
Proof. reflexivity. Qed.

(** * Further properties of the asset *)

(** ** strings.Trim *)

Lemma append_cons (x : ascii) (a b : string) : String x a ++ b = String x (a ++ b).
Proof. reflexivity. Qed.

Lemma append_assoc (a b c : string) : (a ++ b) ++ c = a ++ b ++ c.
Proof.
  induction a as [| x a IH]; [reflexivity |].
  rewrite !append_cons. now rewrite IH.
Qed.

Lemma onlyCutset_append (cutset a b : string) :
  onlyCutset cutset (a ++ b) = onlyCutset cutset a && onlyCutset cutset b.
Proof.
  induction a as [| x a IH]; [reflexivity |].
  rewrite append_cons. cbn [onlyCutset]. rewrite IH.
  now destruct (gostrings.inCutset cutset x).
Qed.

Lemma TrimLeft_split (s cutset : string) :
  exists front,
    s = front ++ gostrings.TrimLeft s cutset /\ onlyCutset cutset front = true.
Proof.
  induction s as [| c s IH]; cbn [gostrings.TrimLeft].
  - exists "". now split.
  - destruct (gostrings.inCutset cutset c) eqn:Hc.
    + destruct IH as (front & Heq & Hfront).
      exists (String c front). rewrite append_cons. cbn [onlyCutset].
      rewrite Hc, Hfront, <- Heq. now split.
    + exists "". now split.
Qed.

Lemma TrimRight_split (s cutset : string) :
  exists back,
    s = gostrings.TrimRight s cutset ++ back /\ onlyCutset cutset back = true.
Proof.
  induction s as [| c s IH]; cbn [gostrings.TrimRight].
  - exists "". now split.
  - destruct IH as (back & Heq & Hback).
    destruct (gostrings.TrimRight s cutset) as [| d kept] eqn:Hkept.
    + destruct (gostrings.inCutset cutset c) eqn:Hc.
      * exists (String c back). cbn [onlyCutset]. rewrite Hc, Hback.
        split; [| reflexivity]. rewrite Heq. reflexivity.
      * exists back. rewrite append_cons, <- Heq. now split.
    + exists back. rewrite append_cons, <- Heq. now split.
Qed.

Lemma TrimLeft_head (s cutset : string) c rest :
  gostrings.TrimLeft s cutset = String c rest -> gostrings.inCutset cutset c = false.
Proof.
  induction s as [| d s IH]; cbn; [discriminate |].
  destruct (gostrings.inCutset cutset d) eqn:Hd; [exact IH |].
  intros Heq. inversion Heq; subst. exact Hd.
Qed.

Lemma TrimRight_last (s cutset : string) front c :
  gostrings.TrimRight s cutset = front ++ String c "" ->
  gostrings.inCutset cutset c = false.
Proof.
  revert front. induction s as [| d s IH]; intros front; cbn [gostrings.TrimRight].
  - destruct front; discriminate.
  - destruct (gostrings.TrimRight s cutset) as [| e kept] eqn:Hkept.
    + destruct (gostrings.inCutset cutset d) eqn:Hd.
      * destruct front; discriminate.
      * destruct front as [| x front]; intros Heq; inversion Heq; subst.
        -- exact Hd.
        -- destruct front; discriminate.
    + destruct front as [| x front]; intros Heq; inversion Heq; subst.
      apply (IH front). assumption.
Qed.

(** A suffix of a string that ends outside the cutset ends outside it. *)
Lemma Trim_last (s cutset : string) front c :
  gostrings.Trim s cutset = front ++ String c "" ->
  gostrings.inCutset cutset c = false.
Proof.
  unfold gostrings.Trim. intros Heq.
  destruct (TrimLeft_split (gostrings.TrimRight s cutset) cutset) as (skipped & Hsplit & _).
  rewrite Heq, <- append_assoc in Hsplit.
  exact (TrimRight_last s cutset _ c Hsplit).
Qed.

Lemma Trim_head (s cutset : string) c rest :
  gostrings.Trim s cutset = String c rest -> gostrings.inCutset cutset c = false.
Proof. unfold gostrings.Trim. apply TrimLeft_head. Qed.

Lemma Trim_split (s cutset : string) :
  exists front back,
    s = front ++ gostrings.Trim s cutset ++ back
    /\ onlyCutset cutset front = true
    /\ onlyCutset cutset back = true.
Proof.
  destruct (TrimRight_split s cutset) as (back & Hright & Hback).
  destruct (TrimLeft_split (gostrings.TrimRight s cutset) cutset) as (front & Hleft & Hfront).
  exists front, back. unfold gostrings.Trim.
  split; [| now split].
  rewrite <- append_assoc, <- Hleft. exact Hright.
Qed.

Lemma append_empty_r (a : string) : a ++ "" = a.
Proof.
  induction a as [| x a IH]; [reflexivity |].
  rewrite append_cons. now rewrite IH.
Qed.

Lemma string_last (s : string) :
  s = "" \/ exists front c, s = front ++ String c "".
Proof.
  induction s as [| d s IH]; [now left | right].
  destruct IH as [-> | (front & c & ->)].
  - exists "", d. reflexivity.
  - exists (String d front), c. reflexivity.
Qed.

(** A string whose first and last bytes are outside the cutset is left
    as it is. *)
Lemma Trim_clean (s cutset : string) :
  (forall c rest, s = String c rest -> gostrings.inCutset cutset c = false) ->
  (forall front c, s = front ++ String c "" -> gostrings.inCutset cutset c = false) ->
  gostrings.Trim s cutset = s.
Proof.
  intros Hhead Hlast.
  destruct (Trim_split s cutset) as (front & back & Hsplit & Hfront & Hback).
  destruct front as [| c front].
  - destruct (string_last back) as [-> | (back' & c & ->)].
    + change ("" ++ gostrings.Trim s cutset ++ "")
        with (gostrings.Trim s cutset ++ "") in Hsplit.
      rewrite append_empty_r in Hsplit. now symmetry.
    + rewrite onlyCutset_append in Hback. cbn [onlyCutset] in Hback.
      change ("" ++ gostrings.Trim s cutset ++ back' ++ String c "")
        with (gostrings.Trim s cutset ++ back' ++ String c "") in Hsplit.
      rewrite <- append_assoc in Hsplit.
      rewrite (Hlast _ c Hsplit) in Hback.
      now destruct (onlyCutset cutset back').
  - rewrite append_cons in Hsplit. cbn [onlyCutset] in Hfront.
    rewrite (Hhead c _ Hsplit) in Hfront. discriminate Hfront.
Qed.

(** ** Which architecture names pass *)

Lemma supportedArch_RpmArch (a : string) :
  supportedArch (arch.RpmArch a) = true <->
  In a [""; "amd64"; "x86_64"; "arm64"; "aarch64"; "ppc64le"].
Proof.
  split.
  - intros Hs. unfold arch.RpmArch in Hs.
    destruct (String.eqb a "amd64") eqn:Hamd;
      [apply String.eqb_eq in Hamd; rewrite Hamd; cbn; auto 10 |].
    destruct (String.eqb a "arm64") eqn:Harm;
      [apply String.eqb_eq in Harm; rewrite Harm; cbn; auto 10 |].
    apply supportedArch_iff in Hs.
    destruct Hs as [-> | [-> | [-> | ->]]]; cbn; auto 10.
  - cbn. intros H. repeat (destruct H as [H | H]; [subst a; reflexivity |]). destruct H.
Qed.

Lemma RpmArch_not_Go_name (a : string) :
  arch.RpmArch a <> "amd64" /\ arch.RpmArch a <> "arm64".
Proof.
  unfold arch.RpmArch.
  destruct (String.eqb a "amd64") eqn:Hamd; [split; discriminate |].
  destruct (String.eqb a "arm64") eqn:Harm; [split; discriminate |].
  apply String.eqb_neq in Hamd, Harm. now split.
Qed.

Section MoreProperties.

Context {bytes : Type} {helpers : Helpers} {yaml : YAML bytes}.

Implicit Types (i : InfraEnv bytes) (m config : aiv1beta1.InfraEnv.t).

(** What Generate builds, field by field, and what it does with it. *)
Lemma Generate_manifest (dependencies : asset.Parents.t) ic controlPlane :
  agent.OptionalInstallConfig.Config (asset.Parents.installConfig dependencies) = Some ic ->
  types.InstallConfig.ControlPlane ic = Some controlPlane ->
  exists m,
    builtFrom dependencies ic controlPlane m
    /\ forall i,
         Generate dependencies i =
         match Marshal m with
         | Err err =>
             Returned (mkInfraEnv (File i) (Some m),
                       Some (errors.Wrap err "failed to marshal agent installer infraEnv"))
         | Ok data =>
             Returned (mkInfraEnv (Some (asset.File.mk infraEnvFilename data)) (Some m),
                       finish (mkInfraEnv (Some (asset.File.mk infraEnvFilename data))
                                          (Some m)))
         end.
Proof.
  intros Hic Hcp. unfold Generate. rewrite Hic, Hcp.
  eexists. split; [| intros i; reflexivity].
  unfold builtFrom.
  destruct (String.eqb (types.MachinePool.Architecture controlPlane) "") eqn:Hempty.
  - apply String.eqb_eq in Hempty. rewrite Hempty.
    destruct (types.InstallConfig.Proxy ic), (agentconfig.AgentConfig.Config _);
      repeat split.
  - destruct (types.InstallConfig.Proxy ic), (agentconfig.AgentConfig.Config _);
      repeat split.
Qed.

(** A Generate that returned, with a configuration at hand, went through
    the build and stored the manifest. *)
Lemma Generate_Returned_inv (dependencies : asset.Parents.t) i i' err ic :
  agent.OptionalInstallConfig.Config (asset.Parents.installConfig dependencies) = Some ic ->
  Generate dependencies i = Returned (i', err) ->
  exists controlPlane m,
    types.InstallConfig.ControlPlane ic = Some controlPlane
    /\ builtFrom dependencies ic controlPlane m
    /\ Config i' = Some m
    /\ match Marshal m with
       | Err cause =>
           File i' = File i
           /\ err = Some (errors.Wrap cause "failed to marshal agent installer infraEnv")
       | Ok data =>
           File i' = Some (asset.File.mk infraEnvFilename data)
           /\ err = finish i'
       end.
Proof.
  intros Hic Hgen.
  destruct (types.InstallConfig.ControlPlane ic) as [controlPlane |] eqn:Hcp.
  2: now rewrite (Generate_nil_ControlPlane dependencies i ic Hic Hcp) in Hgen.
  destruct (Generate_manifest dependencies ic controlPlane Hic Hcp) as (m & Hbuilt & Heq).
  rewrite Heq in Hgen. exists controlPlane, m.
  split; [reflexivity |]. split; [exact Hbuilt |].
  destruct (Marshal m) as [data | cause]; inversion Hgen; subst; cbn; auto.
Qed.

(** The three ways Load can go, by what the collaborators return. *)
Lemma Load_cases (f : asset.FileFetcher.t bytes) i :
  (exists err,
      asset.FileFetcher.FetchByName f infraEnvFilename = Err err
      /\ Load f i
         = (i, (false,
                if os.IsNotExist err then None
                else Some (errors.Wrap err ("failed to load " ++ infraEnvFilename ++ " file")))))
  \/ (exists file err,
         asset.FileFetcher.FetchByName f infraEnvFilename = Ok file
         /\ UnmarshalStrict (asset.File.Data file) = Err err
         /\ Load f i
            = (i, (false, Some (errors.Wrapf err ("failed to unmarshal " ++ infraEnvFilename)))))
  \/ (exists file config,
         asset.FileFetcher.FetchByName f infraEnvFilename = Ok file
         /\ UnmarshalStrict (asset.File.Data file) = Ok config
         /\ Load f i
            = (mkInfraEnv (Some file)
                 (Some (withCpuArchitecture (arch.RpmArch (cpuArchitecture config)) config)),
               match finish (mkInfraEnv (Some file)
                               (Some (withCpuArchitecture
                                        (arch.RpmArch (cpuArchitecture config)) config)))
               with
               | Some err => (false, Some err)
               | None => (true, None)
               end)).
Proof.
  destruct (asset.FileFetcher.FetchByName f infraEnvFilename) as [file | err] eqn:Hfetch.
  - destruct (UnmarshalStrict (asset.File.Data file)) as [config | err] eqn:Hdec.
    + right; right. exists file, config.
      split; [reflexivity |]. split; [exact Hdec |].
      exact (Load_decoded f i file config Hfetch Hdec).
    + right; left. exists file, err.
      split; [reflexivity |]. split; [exact Hdec |].
      exact (Load_decode_error f i file err Hfetch Hdec).
  - left. exists err. split; [reflexivity |]. exact (Load_fetch_error f i err Hfetch).
Qed.

(** *** Load *)

(** X1: a fetch error other than does-not-exist is returned wrapped, with
    the path in its message and the fetcher's error as its cause; the
    asset is left as it was. *)
Theorem Load_fetch_failure (f : asset.FileFetcher.t bytes) i err :
  asset.FileFetcher.FetchByName f infraEnvFilename = Err err ->
  os.IsNotExist err = false ->
  Load f i
  = (i, (false, Some (errors.Wrap err ("failed to load " ++ infraEnvFilename ++ " file")))).
Proof.
  intros Hfetch Hother. rewrite (Load_fetch_error f i err Hfetch). now rewrite Hother.
Qed.

(** X2: Load answers (false, nil) only when the fetcher reported that the
    file does not exist, and then the asset is unchanged. *)
Theorem Load_absent_only_when_not_found (f : asset.FileFetcher.t bytes) i i' :
  Load f i = (i', (false, None)) ->
  i' = i
  /\ exists err,
       asset.FileFetcher.FetchByName f infraEnvFilename = Err err
       /\ os.IsNotExist err = true.
Proof.
  intros Hload.
  destruct (Load_cases f i)
    as [(err & Hfetch & Heq) | [(file & err & _ & _ & Heq) | (file & config & _ & _ & Heq)]];
    rewrite Heq in Hload.
  - destruct (os.IsNotExist err) eqn:Hne; inversion Hload; subst. eauto.
  - inversion Hload.
  - destruct (finish _); inversion Hload.
Qed.

(** X3: when Load answers found, the error is nil, the fetch and the
    strict decoding succeeded, the asset holds the fetched file as it is
    and the decoded manifest with its architecture normalized, and that
    architecture is a supported one. *)
Theorem Load_found (f : asset.FileFetcher.t bytes) i i' err :
  Load f i = (i', (true, err)) ->
  err = None
  /\ exists file config,
       asset.FileFetcher.FetchByName f infraEnvFilename = Ok file
       /\ UnmarshalStrict (asset.File.Data file) = Ok config
       /\ File i' = Some file
       /\ Config i'
          = Some (withCpuArchitecture (arch.RpmArch (cpuArchitecture config)) config)
       /\ supportedArch (arch.RpmArch (cpuArchitecture config)) = true.
Proof.
  intros Hload.
  destruct (Load_cases f i)
    as [(e & _ & Heq) | [(file & e & _ & _ & Heq) | (file & config & Hfetch & Hdec & Heq)]];
    rewrite Heq in Hload; try (inversion Hload; fail).
  destruct (finish _) eqn:Hfin; inversion Hload; subst.
  split; [reflexivity |]. exists file, config.
  repeat split; try assumption.
  destruct (finish_None _ Hfin) as (m & Hm & Hs). cbn in Hm. inversion Hm; subst m.
  now rewrite cpuArchitecture_with in Hs.
Qed.

(** X4: Load writes the asset all or nothing: when the fetch fails, or
    the fetch succeeds and strict decoding fails, the asset is exactly as
    it was; when both succeed, File is the fetched file and Config is the
    decoded manifest with its architecture normalized, both set at once. *)
Theorem Load_all_or_nothing (f : asset.FileFetcher.t bytes) i :
  (forall err,
      asset.FileFetcher.FetchByName f infraEnvFilename = Err err ->
      fst (Load f i) = i)
  /\ (forall file err,
         asset.FileFetcher.FetchByName f infraEnvFilename = Ok file ->
         UnmarshalStrict (asset.File.Data file) = Err err ->
         fst (Load f i) = i)
  /\ (forall file config,
         asset.FileFetcher.FetchByName f infraEnvFilename = Ok file ->
         UnmarshalStrict (asset.File.Data file) = Ok config ->
         File (fst (Load f i)) = Some file
         /\ Config (fst (Load f i))
            = Some (withCpuArchitecture (arch.RpmArch (cpuArchitecture config)) config)).
Proof.
  split; [| split].
  - intros err Hfetch. now rewrite (Load_fetch_error f i err Hfetch).
  - intros file err Hfetch Hdec. now rewrite (Load_decode_error f i file err Hfetch Hdec).
  - intros file config Hfetch Hdec.
    now rewrite (Load_decoded f i file config Hfetch Hdec).
Qed.

(** X5: loading again from the same fetcher changes nothing: the second
    Load gives the same asset and the same answer as the first. *)
Theorem Load_idempotent (f : asset.FileFetcher.t bytes) i i' answer :
  Load f i = (i', answer) -> Load f i' = (i', answer).
Proof.
  intros Hload.
  destruct (Load_cases f i)
    as [(err & Hfetch & Heq) | [(file & err & Hfetch & Hdec & Heq)
                               | (file & config & Hfetch & Hdec & Heq)]];
    rewrite Heq in Hload; inversion Hload; subst.
  - apply Load_fetch_error. assumption.
  - apply (Load_decode_error f i' file err Hfetch Hdec).
  - apply (Load_decoded f _ file config Hfetch Hdec).
Qed.

(** X6: Load changes nothing of the decoded manifest but the
    architecture, and the architecture only when it is the Go name amd64
    or arm64: with any other value the asset holds exactly what was
    decoded. *)
Theorem Load_changes_only_Go_names (f : asset.FileFetcher.t bytes) i file config :
  asset.FileFetcher.FetchByName f infraEnvFilename = Ok file ->
  UnmarshalStrict (asset.File.Data file) = Ok config ->
  exists m,
    Config (fst (Load f i)) = Some m
    /\ withCpuArchitecture (cpuArchitecture config) m = config
    /\ (cpuArchitecture config <> "amd64" -> cpuArchitecture config <> "arm64" ->
        m = config).
Proof.
  intros Hfetch Hdec. rewrite (Load_decoded f i file config Hfetch Hdec). cbn.
  eexists. split; [reflexivity |]. split.
  - destruct config as [meta []]. reflexivity.
  - intros Hamd Harm.
    assert (Hsame : arch.RpmArch (cpuArchitecture config) = cpuArchitecture config).
    { unfold arch.RpmArch. apply String.eqb_neq in Hamd, Harm. now rewrite Hamd, Harm. }
    rewrite Hsame. apply withCpuArchitecture_same.
Qed.

(** X7: which architectures on disk load: with fetch and decoding
    succeeding, Load answers found without error exactly when the
    decoded architecture is empty or one of amd64, x86_64, arm64, aarch64,
    ppc64le; with any other value it answers not found together with the
    error that names the value. *)
Theorem Load_accepted_architectures (f : asset.FileFetcher.t bytes) i file config :
  asset.FileFetcher.FetchByName f infraEnvFilename = Ok file ->
  UnmarshalStrict (asset.File.Data file) = Ok config ->
  (snd (Load f i) = (true, None)
   <-> In (cpuArchitecture config) [""; "amd64"; "x86_64"; "arm64"; "aarch64"; "ppc64le"])
  /\ (~ In (cpuArchitecture config) [""; "amd64"; "x86_64"; "arm64"; "aarch64"; "ppc64le"] ->
      snd (Load f i)
      = (false,
         Some (errors.Errorf ("Config.Spec.CpuArchitecture " ++ cpuArchitecture config
                              ++ " is not supported ")))).
Proof.
  intros Hfetch Hdec. rewrite <- supportedArch_RpmArch.
  destruct (supportedArch (arch.RpmArch (cpuArchitecture config))) eqn:Hs.
  - rewrite (Load_decoded f i file config Hfetch Hdec). cbn [snd].
    rewrite (finish_accepts (mkInfraEnv _ _) _ eq_refl)
      by now rewrite cpuArchitecture_with.
    split; [tauto | intros Hnot; now destruct Hnot].
  - rewrite (Load_rejected f i file config Hfetch Hdec Hs). cbn [snd].
    split; [split; discriminate | reflexivity].
Qed.

(** *** finish *)

(** X8: the validator passes exactly when a manifest is present and its
    architecture is empty, x86_64, aarch64 or ppc64le; the file plays no
    part in it. *)
Theorem finish_passes_iff i :
  finish i = None
  <-> exists m, Config i = Some m
                /\ In (cpuArchitecture m) [""; "x86_64"; "aarch64"; "ppc64le"].
Proof.
  split.
  - intros Hfin. destruct (finish_None i Hfin) as (m & Hm & Hs).
    exists m. split; [exact Hm |]. apply supportedArch_iff in Hs. cbn.
    destruct Hs as [-> | [-> | [-> | ->]]]; auto 10.
  - intros (m & Hm & Hin). apply (finish_accepts i m Hm).
    apply supportedArch_iff. cbn in Hin.
    destruct Hin as [<- | [<- | [<- | [<- | []]]]]; auto.
Qed.

(** *** Generate *)

(** X10: generating again from the same dependencies changes nothing:
    the second Generate returns the same asset and the same error as the
    first. *)
Theorem Generate_idempotent (dependencies : asset.Parents.t) i i' err :
  Generate dependencies i = Returned (i', err) ->
  Generate dependencies i' = Returned (i', err).
Proof.
  intros Hgen.
  destruct (agent.OptionalInstallConfig.Config (asset.Parents.installConfig dependencies))
    as [ic |] eqn:Hic.
  - destruct (types.InstallConfig.ControlPlane ic) as [controlPlane |] eqn:Hcp.
    + destruct (Generate_manifest dependencies ic controlPlane Hic Hcp) as (m & _ & Heq).
      rewrite Heq in Hgen. rewrite Heq.
      destruct (Marshal m); inversion Hgen; subst; reflexivity.
    + now rewrite (Generate_nil_ControlPlane dependencies i ic Hic Hcp) in Hgen.
  - rewrite Generate_skip in Hgen by assumption. inversion Hgen; subst.
    now apply Generate_skip.
Qed.

(** X11: manifests supplied on disk stand in for the install
    configuration: after a Load that answered found, Generate without an
    install configuration returns no error and leaves the loaded asset as
    it is. *)
Theorem Generate_after_Load (f : asset.FileFetcher.t bytes)
    (dependencies : asset.Parents.t) i i' :
  Load f i = (i', (true, None)) ->
  agent.OptionalInstallConfig.Config (asset.Parents.installConfig dependencies) = None ->
  Generate dependencies i' = Returned (i', None).
Proof.
  intros Hload Hskip. rewrite Generate_skip by assumption.
  destruct (Load_cases f i)
    as [(e & _ & Heq) | [(file & e & _ & _ & Heq) | (file & config & _ & _ & Heq)]];
    rewrite Heq in Hload; try (inversion Hload; fail).
  destruct (finish _) eqn:Hfin; inversion Hload; subst. now rewrite Hfin.
Qed.

(** X12: after a Generate that built from an install configuration and
    returned no error, the asset has exactly one file: it is named
    [infraEnvFilename] and its data is the serialized form of the
    manifest in Config. *)
Theorem Generate_success_file (dependencies : asset.Parents.t) i i' ic :
  agent.OptionalInstallConfig.Config (asset.Parents.installConfig dependencies) = Some ic ->
  Generate dependencies i = Returned (i', None) ->
  exists m data,
    Config i' = Some m
    /\ Marshal m = Ok data
    /\ Files i' = [asset.File.mk infraEnvFilename data].
Proof.
  intros Hic Hgen.
  destruct (Generate_Returned_inv dependencies i i' None ic Hic Hgen)
    as (controlPlane & m & _ & _ & Hm & Hrest).
  destruct (Marshal m) as [data | cause] eqn:Hmarshal.
  - destruct Hrest as [Hfile _]. exists m, data.
    repeat split; try assumption. unfold Files. now rewrite Hfile.
  - destruct Hrest as [_ Herr]. discriminate Herr.
Qed.

(** X13: when serializing the built manifest fails, Generate returns
    that error wrapped; Config already holds the new manifest, while File
    is still what it was before the call. *)
Theorem Generate_marshal_failure (dependencies : asset.Parents.t) i i' err ic m cause :
  agent.OptionalInstallConfig.Config (asset.Parents.installConfig dependencies) = Some ic ->
  Generate dependencies i = Returned (i', err) ->
  Config i' = Some m ->
  Marshal m = Err cause ->
  err = Some (errors.Wrap cause "failed to marshal agent installer infraEnv")
  /\ File i' = File i.
Proof.
  intros Hic Hgen Hm Hmarshal.
  destruct (Generate_Returned_inv dependencies i i' err ic Hic Hgen)
    as (controlPlane & m0 & _ & _ & Hm0 & Hrest).
  rewrite Hm in Hm0. inversion Hm0; subst m0. rewrite Hmarshal in Hrest. tauto.
Qed.

(** X14: which control-plane architectures generate: with a codec whose
    Marshal does not fail, Generate returns no error exactly when the
    architecture of the install configuration is empty or one of amd64,
    x86_64, arm64, aarch64, ppc64le. *)
Theorem Generate_accepted_architectures (dependencies : asset.Parents.t) i ic controlPlane :
  (forall m, exists data, Marshal m = Ok data) ->
  agent.OptionalInstallConfig.Config (asset.Parents.installConfig dependencies) = Some ic ->
  types.InstallConfig.ControlPlane ic = Some controlPlane ->
  (exists i', Generate dependencies i = Returned (i', None))
  <-> In (types.MachinePool.Architecture controlPlane)
         [""; "amd64"; "x86_64"; "arm64"; "aarch64"; "ppc64le"].
Proof.
  intros Htotal Hic Hcp. rewrite <- supportedArch_RpmArch.
  destruct (Generate_manifest dependencies ic controlPlane Hic Hcp)
    as (m & Hbuilt & Heq).
  destruct Hbuilt as (_ & _ & _ & _ & _ & Hcpu & _). rewrite <- Hcpu.
  rewrite Heq. destruct (Htotal m) as [data ->].
  destruct (supportedArch (cpuArchitecture m)) eqn:Hs.
  - rewrite (finish_accepts (mkInfraEnv _ _) m eq_refl Hs). split; eauto.
  - rewrite (finish_rejects (mkInfraEnv _ _) m eq_refl Hs).
    split; [intros [i' Hgen]; inversion Hgen | discriminate].
Qed.

(** X15: the key Generate stores neither begins nor ends with a pipe, a
    newline or a tab. *)
Theorem Generate_key_ends_clean (dependencies : asset.Parents.t) i i' err ic :
  agent.OptionalInstallConfig.Config (asset.Parents.installConfig dependencies) = Some ic ->
  Generate dependencies i = Returned (i', err) ->
  exists m,
    Config i' = Some m
    /\ (forall c rest,
           sshAuthorizedKey m = String c rest -> gostrings.inCutset sshKeyCutset c = false)
    /\ (forall front c,
           sshAuthorizedKey m = front ++ String c "" ->
           gostrings.inCutset sshKeyCutset c = false).
Proof.
  intros Hic Hgen.
  destruct (Generate_Returned_inv dependencies i i' err ic Hic Hgen)
    as (controlPlane & m & _ & Hbuilt & Hm & _).
  destruct Hbuilt as (_ & _ & Hkey & _).
  exists m. split; [exact Hm |]. rewrite Hkey. split.
  - intros c rest. apply Trim_head.
  - intros front c. apply Trim_last.
Qed.

(** X16: trimming loses nothing of the key itself: the key material of
    the install configuration is the stored key with, before and after
    it, only pipes, newlines and tabs. *)
Theorem Generate_key_kept (dependencies : asset.Parents.t) i i' err ic :
  agent.OptionalInstallConfig.Config (asset.Parents.installConfig dependencies) = Some ic ->
  Generate dependencies i = Returned (i', err) ->
  exists m front back,
    Config i' = Some m
    /\ types.InstallConfig.SSHKey ic = front ++ sshAuthorizedKey m ++ back
    /\ onlyCutset sshKeyCutset front = true
    /\ onlyCutset sshKeyCutset back = true.
Proof.
  intros Hic Hgen.
  destruct (Generate_Returned_inv dependencies i i' err ic Hic Hgen)
    as (controlPlane & m & _ & Hbuilt & Hm & _).
  destruct Hbuilt as (_ & _ & Hkey & _).
  destruct (Trim_split (types.InstallConfig.SSHKey ic) sshKeyCutset)
    as (front & back & Hsplit & Hfront & Hback).
  exists m, front, back. rewrite Hkey. now repeat split.
Qed.

(** X17: the shape of every generated manifest: the cluster reference
    and the pull-secret reference are set, the cluster reference lives in
    the namespace of the manifest, a proxy appears only if the install
    configuration has one, and the time sources are those of the agent
    configuration, none without it. *)
Theorem Generate_manifest_shape (dependencies : asset.Parents.t) i i' err ic :
  agent.OptionalInstallConfig.Config (asset.Parents.installConfig dependencies) = Some ic ->
  Generate dependencies i = Returned (i', err) ->
  exists m clusterRef,
    Config i' = Some m
    /\ aiv1beta1.InfraEnvSpec.ClusterRef (aiv1beta1.InfraEnv.Spec m) = Some clusterRef
    /\ aiv1beta1.ClusterReference.Namespace clusterRef
       = metav1.ObjectMeta.Namespace (aiv1beta1.InfraEnv.ObjectMeta m)
    /\ aiv1beta1.InfraEnvSpec.PullSecretRef (aiv1beta1.InfraEnv.Spec m) <> None
    /\ (types.InstallConfig.Proxy ic = None ->
        aiv1beta1.InfraEnvSpec.Proxy (aiv1beta1.InfraEnv.Spec m) = None)
    /\ aiv1beta1.InfraEnvSpec.AdditionalNTPSources (aiv1beta1.InfraEnv.Spec m)
       = match agentconfig.AgentConfig.Config (asset.Parents.agentConfig dependencies) with
         | Some ac => agentconfig.Config.AdditionalNTPSources ac
         | None => []
         end.
Proof.
  intros Hic Hgen.
  destruct (Generate_Returned_inv dependencies i i' err ic Hic Hgen)
    as (controlPlane & m & _ & Hbuilt & Hm & _).
  destruct Hbuilt as (Hmeta & Href & _ & Hsecret & _ & _ & Hproxy & Hntp).
  eexists m, _. split; [exact Hm |]. split; [exact Href |].
  rewrite Hmeta, Hsecret, Hproxy, Hntp. cbn.
  repeat split; [discriminate | now intros ->].
Qed.

(** X18: whatever Generate builds and whatever Load decodes, the
    architecture stored in Config is never the Go name amd64 or arm64. *)
Theorem Config_architecture_never_Go_name :
  (forall (dependencies : asset.Parents.t) i i' err ic m,
      agent.OptionalInstallConfig.Config (asset.Parents.installConfig dependencies) = Some ic ->
      Generate dependencies i = Returned (i', err) ->
      Config i' = Some m ->
      cpuArchitecture m <> "amd64" /\ cpuArchitecture m <> "arm64")
  /\ (forall (f : asset.FileFetcher.t bytes) i file config m,
         asset.FileFetcher.FetchByName f infraEnvFilename = Ok file ->
         UnmarshalStrict (asset.File.Data file) = Ok config ->
         Config (fst (Load f i)) = Some m ->
         cpuArchitecture m <> "amd64" /\ cpuArchitecture m <> "arm64").
Proof.
  split.
  - intros dependencies i i' err ic m Hic Hgen Hm.
    destruct (Generate_Returned_inv dependencies i i' err ic Hic Hgen)
      as (controlPlane & m0 & _ & Hbuilt & Hm0 & _).
    rewrite Hm in Hm0. inversion Hm0; subst m0.
    destruct Hbuilt as (_ & _ & _ & _ & _ & Hcpu & _). rewrite Hcpu.
    apply RpmArch_not_Go_name.
  - intros f i file config m Hfetch Hdec Hm.
    rewrite (Load_decoded f i file config Hfetch Hdec) in Hm. cbn in Hm.
    inversion Hm; subst m. rewrite cpuArchitecture_with. apply RpmArch_not_Go_name.
Qed.

(** X19: a key that neither begins nor ends with a pipe, a newline or a
    tab is stored unchanged. *)
Theorem Generate_key_unchanged (dependencies : asset.Parents.t) i i' err ic :
  agent.OptionalInstallConfig.Config (asset.Parents.installConfig dependencies) = Some ic ->
  Generate dependencies i = Returned (i', err) ->
  (forall c rest,
      types.InstallConfig.SSHKey ic = String c rest ->
      gostrings.inCutset sshKeyCutset c = false) ->
  (forall front c,
      types.InstallConfig.SSHKey ic = front ++ String c "" ->
      gostrings.inCutset sshKeyCutset c = false) ->
  exists m, Config i' = Some m /\ sshAuthorizedKey m = types.InstallConfig.SSHKey ic.
Proof.
  intros Hic Hgen Hhead Hlast.
  destruct (Generate_Returned_inv dependencies i i' err ic Hic Hgen)
    as (controlPlane & m & _ & Hbuilt & Hm & _).
  destruct Hbuilt as (_ & _ & Hkey & _).
  exists m. split; [exact Hm |]. rewrite Hkey. now apply Trim_clean.
Qed.

End MoreProperties.

(** ** The further properties on the concrete inputs *)

(** Unreadable storage. *)
Lemma Load_fetch_failure_witness :
  Load (helpers := ref.helpers) (yaml := ref.yaml) scenario.brokenFetcher scenario.empty
  = (scenario.empty,
     (false, Some (errors.Wrap (errors.External "permission denied")
                               ("failed to load " ++ scenario.path ++ " file")))).
Proof.
  apply (@Load_fetch_failure ref.node ref.helpers ref.yaml scenario.brokenFetcher
           scenario.empty (errors.External "permission denied")); reflexivity.
Defined.

Lemma Load_absent_only_when_not_found_witness :
  Load (helpers := ref.helpers) (yaml := ref.yaml) (scenario.fetcher None) scenario.empty
  = (scenario.empty, (false, None))
  /\ scenario.empty = scenario.empty
  /\ exists err,
       asset.FileFetcher.FetchByName (scenario.fetcher None)
         (infraEnvFilename (helpers := ref.helpers)) = Err err
       /\ os.IsNotExist err = true.
Proof.
  split; [reflexivity |].
  apply (@Load_absent_only_when_not_found ref.node ref.helpers ref.yaml
           (scenario.fetcher None) scenario.empty scenario.empty).
  reflexivity.
Defined.

(** The file with the Go name amd64 on disk. *)
Lemma Load_found_witness :
  @None error = None
  /\ exists file config,
       asset.FileFetcher.FetchByName (scenario.fetcher (Some scenario.legacyDoc))
         (infraEnvFilename (helpers := ref.helpers)) = Ok file
       /\ ref.decodeStrict (asset.File.Data file) = Ok config
       /\ File scenario.loaded = Some file
       /\ Config scenario.loaded
          = Some (withCpuArchitecture (arch.RpmArch (cpuArchitecture config)) config)
       /\ supportedArch (arch.RpmArch (cpuArchitecture config)) = true.
Proof.
  apply (@Load_found ref.node ref.helpers ref.yaml
           (scenario.fetcher (Some scenario.legacyDoc)) scenario.empty scenario.loaded None).
  reflexivity.
Defined.

Lemma Load_idempotent_witness :
  Load (helpers := ref.helpers) (yaml := ref.yaml)
       (scenario.fetcher (Some scenario.legacyDoc)) scenario.loaded
  = (scenario.loaded, (true, None)).
Proof.
  apply (@Load_idempotent ref.node ref.helpers ref.yaml
           (scenario.fetcher (Some scenario.legacyDoc)) scenario.empty scenario.loaded).
  reflexivity.
Defined.

(** The generated file of the scenario on disk: aarch64 is left alone. *)
Lemma Load_changes_only_Go_names_witness :
  exists m,
    Config (fst (Load (helpers := ref.helpers) (yaml := ref.yaml)
                      (scenario.fetcher (Some (ref.encode scenario.generatedManifest)))
                      scenario.empty))
    = Some m
    /\ m = scenario.generatedManifest.
Proof.
  destruct (@Load_changes_only_Go_names ref.node ref.helpers ref.yaml
              (scenario.fetcher (Some (ref.encode scenario.generatedManifest)))
              scenario.empty
              (asset.File.mk scenario.path (ref.encode scenario.generatedManifest))
              scenario.generatedManifest eq_refl eq_refl)
    as (m & Hm & _ & Hsame).
  exists m. split; [exact Hm |]. apply Hsame; discriminate.
Defined.

Lemma Load_accepted_architectures_witness :
  (snd (Load (helpers := ref.helpers) (yaml := ref.yaml)
             (scenario.fetcher (Some scenario.unsupportedDoc)) scenario.empty)
   = (true, None)
   <-> In "unsupported-value" [""; "amd64"; "x86_64"; "arm64"; "aarch64"; "ppc64le"])
  /\ snd (Load (helpers := ref.helpers) (yaml := ref.yaml)
               (scenario.fetcher (Some scenario.unsupportedDoc)) scenario.empty)
     = (false,
        Some (errors.Errorf
                "Config.Spec.CpuArchitecture unsupported-value is not supported ")).
Proof.
  destruct (@Load_accepted_architectures ref.node ref.helpers ref.yaml
              (scenario.fetcher (Some scenario.unsupportedDoc)) scenario.empty
              (asset.File.mk scenario.path scenario.unsupportedDoc)
              (scenario.manifestWith "unsupported-value") eq_refl eq_refl)
    as [Hiff Hother].
  split; [exact Hiff |]. apply Hother. cbn.
  intros H. repeat (destruct H as [H | H]; [discriminate H |]). destruct H.
Defined.

(** The three outcomes on the concrete directory: nothing on disk, a
    document that does not decode, a document that does. *)
Lemma Load_all_or_nothing_witness :
  fst (Load (helpers := ref.helpers) (yaml := ref.yaml) (scenario.fetcher None)
            scenario.loaded) = scenario.loaded
  /\ fst (Load (helpers := ref.helpers) (yaml := ref.yaml)
               (scenario.fetcher (Some scenario.extraFieldDoc)) scenario.loaded)
     = scenario.loaded
  /\ (File (fst (Load (helpers := ref.helpers) (yaml := ref.yaml)
                      (scenario.fetcher (Some scenario.legacyDoc)) scenario.empty))
      = Some (asset.File.mk scenario.path scenario.legacyDoc)
      /\ Config (fst (Load (helpers := ref.helpers) (yaml := ref.yaml)
                           (scenario.fetcher (Some scenario.legacyDoc)) scenario.empty))
         = Some (withCpuArchitecture (arch.RpmArch "amd64") (scenario.manifestWith "amd64"))).
Proof.
  split; [| split].
  - apply (proj1 (@Load_all_or_nothing ref.node ref.helpers ref.yaml
                    (scenario.fetcher None) scenario.loaded)
             (errors.NotExist scenario.path)); reflexivity.
  - apply (proj1 (proj2
             (@Load_all_or_nothing ref.node ref.helpers ref.yaml
                (scenario.fetcher (Some scenario.extraFieldDoc)) scenario.loaded))
             (asset.File.mk scenario.path scenario.extraFieldDoc)
             (errors.External "unknown field")); reflexivity.
  - apply (proj2 (proj2
             (@Load_all_or_nothing ref.node ref.helpers ref.yaml
                (scenario.fetcher (Some scenario.legacyDoc)) scenario.empty))
             (asset.File.mk scenario.path scenario.legacyDoc)
             (scenario.manifestWith "amd64")); reflexivity.
Defined.

Lemma Generate_idempotent_witness :
  Generate (helpers := ref.helpers) (yaml := ref.yaml) scenario.parents scenario.generated
  = Returned (scenario.generated, None).
Proof.
  apply (@Generate_idempotent ref.node ref.helpers ref.yaml scenario.parents scenario.empty).
  reflexivity.
Defined.

(** Manifest on disk, no install configuration. *)
Lemma Generate_after_Load_witness :
  Generate (helpers := ref.helpers) (yaml := ref.yaml) scenario.skipParents scenario.loaded
  = Returned (scenario.loaded, None).
Proof.
  apply (@Generate_after_Load ref.node ref.helpers ref.yaml
           (scenario.fetcher (Some scenario.legacyDoc)) scenario.skipParents
           scenario.empty scenario.loaded); reflexivity.
Defined.

Lemma Generate_success_file_witness :
  exists m data,
    Config scenario.generated = Some m
    /\ Marshal (YAML := ref.yaml) m = Ok data
    /\ Files scenario.generated
       = [asset.File.mk (infraEnvFilename (helpers := ref.helpers)) data].
Proof.
  apply (@Generate_success_file ref.node ref.helpers ref.yaml scenario.parents
           scenario.empty scenario.generated scenario.installConfig); reflexivity.
Defined.

(** The codec whose Marshal fails. *)
Lemma Generate_marshal_failure_witness :
  Generate (helpers := ref.helpers) (yaml := ref.failingYaml) scenario.parents scenario.empty
  = Returned (mkInfraEnv None (Some scenario.generatedManifest),
              Some (errors.Wrap (errors.External "json: unsupported value")
                                "failed to marshal agent installer infraEnv"))
  /\ File (mkInfraEnv (bytes := ref.node) None (Some scenario.generatedManifest))
     = File scenario.empty.
Proof.
  split; [reflexivity |].
  apply (@Generate_marshal_failure ref.node ref.helpers ref.failingYaml scenario.parents
           scenario.empty (mkInfraEnv None (Some scenario.generatedManifest))
           (Some (errors.Wrap (errors.External "json: unsupported value")
                              "failed to marshal agent installer infraEnv"))
           scenario.installConfig scenario.generatedManifest
           (errors.External "json: unsupported value")); reflexivity.
Defined.

Lemma Generate_accepted_architectures_witness :
  (exists i',
      Generate (helpers := ref.helpers) (yaml := ref.yaml) scenario.parents scenario.empty
      = Returned (i', None))
  <-> In "arm64" [""; "amd64"; "x86_64"; "arm64"; "aarch64"; "ppc64le"].
Proof.
  apply (@Generate_accepted_architectures ref.node ref.helpers ref.yaml scenario.parents
           scenario.empty scenario.installConfig (types.MachinePool.mk "arm64")).
  - intros m. exists (ref.encode m). reflexivity.
  - reflexivity.
  - reflexivity.
Defined.

(** The key wrapped in pipes, tabs and newlines, with proxy and time
    sources. *)
Lemma Generate_key_ends_clean_witness :
  exists i' err m,
    Generate (helpers := ref.helpers) (yaml := ref.yaml) scenario.fullParents scenario.empty
    = Returned (i', err)
    /\ Config i' = Some m
    /\ (forall c rest,
           sshAuthorizedKey m = String c rest -> gostrings.inCutset sshKeyCutset c = false)
    /\ (forall front c,
           sshAuthorizedKey m = front ++ String c "" ->
           gostrings.inCutset sshKeyCutset c = false).
Proof.
  eexists _, _.
  assert (Hgen : Generate (helpers := ref.helpers) (yaml := ref.yaml)
                          scenario.fullParents scenario.empty = Returned (_, _))
    by reflexivity.
  destruct (@Generate_key_ends_clean ref.node ref.helpers ref.yaml scenario.fullParents
              scenario.empty _ _ scenario.fullInstallConfig eq_refl Hgen)
    as (m & Hm & Hends).
  exists m. split; [exact Hgen |]. split; [exact Hm | exact Hends].
Defined.

Lemma Generate_key_kept_witness :
  exists i' err m front back,
    Generate (helpers := ref.helpers) (yaml := ref.yaml) scenario.fullParents scenario.empty
    = Returned (i', err)
    /\ Config i' = Some m
    /\ scenario.wrappedKey = front ++ sshAuthorizedKey m ++ back
    /\ onlyCutset sshKeyCutset front = true
    /\ onlyCutset sshKeyCutset back = true.
Proof.
  eexists _, _.
  assert (Hgen : Generate (helpers := ref.helpers) (yaml := ref.yaml)
                          scenario.fullParents scenario.empty = Returned (_, _))
    by reflexivity.
  destruct (@Generate_key_kept ref.node ref.helpers ref.yaml scenario.fullParents
              scenario.empty _ _ scenario.fullInstallConfig eq_refl Hgen)
    as (m & front & back & Hm & Hkept).
  exists m, front, back. split; [exact Hgen |]. split; [exact Hm | exact Hkept].
Defined.

Lemma Generate_manifest_shape_witness :
  exists i' err m clusterRef,
    Generate (helpers := ref.helpers) (yaml := ref.yaml) scenario.fullParents scenario.empty
    = Returned (i', err)
    /\ Config i' = Some m
    /\ aiv1beta1.InfraEnvSpec.ClusterRef (aiv1beta1.InfraEnv.Spec m) = Some clusterRef
    /\ aiv1beta1.ClusterReference.Namespace clusterRef
       = metav1.ObjectMeta.Namespace (aiv1beta1.InfraEnv.ObjectMeta m)
    /\ aiv1beta1.InfraEnvSpec.PullSecretRef (aiv1beta1.InfraEnv.Spec m) <> None
    /\ aiv1beta1.InfraEnvSpec.AdditionalNTPSources (aiv1beta1.InfraEnv.Spec m)
       = ["0.pool.ntp.org"; "1.pool.ntp.org"].
Proof.
  eexists _, _.
  assert (Hgen : Generate (helpers := ref.helpers) (yaml := ref.yaml)
                          scenario.fullParents scenario.empty = Returned (_, _))
    by reflexivity.
  destruct (@Generate_manifest_shape ref.node ref.helpers ref.yaml scenario.fullParents
              scenario.empty _ _ scenario.fullInstallConfig eq_refl Hgen)
    as (m & clusterRef & Hm & Href & Hns & Hsecret & _ & Hntp).
  exists m, clusterRef. repeat split; assumption.
Defined.

Lemma Config_architecture_never_Go_name_witness :
  (cpuArchitecture scenario.generatedManifest <> "amd64"
   /\ cpuArchitecture scenario.generatedManifest <> "arm64")
  /\ (cpuArchitecture (scenario.manifestWith "x86_64") <> "amd64"
      /\ cpuArchitecture (scenario.manifestWith "x86_64") <> "arm64").
Proof.
  destruct (@Config_architecture_never_Go_name ref.node ref.helpers ref.yaml)
    as [Hgenerate Hload].
  split.
  - apply (Hgenerate scenario.parents scenario.empty scenario.generated None
             scenario.installConfig scenario.generatedManifest); reflexivity.
  - apply (Hload (scenario.fetcher (Some scenario.legacyDoc)) scenario.empty
             (asset.File.mk scenario.path scenario.legacyDoc)
             (scenario.manifestWith "amd64") (scenario.manifestWith "x86_64"));
      reflexivity.
Defined.

(** Walks a string equation [key = front ++ String c ""] down to the last
    byte of [key]. *)
Ltac last_byte H front :=
  destruct front as [| ? front];
  [ inversion H; subst; first [reflexivity | discriminate]
  | rewrite append_cons in H; inversion H; subst; clear H;
    match goal with
    | H' : _ = front ++ _ |- _ => last_byte H' front
    end ].

Lemma Generate_key_unchanged_witness :
  exists i' err m,
    Generate (helpers := ref.helpers) (yaml := ref.yaml) scenario.cleanParents scenario.empty
    = Returned (i', err)
    /\ Config i' = Some m
    /\ sshAuthorizedKey m = "ssh-rsa AAA...".
Proof.
  eexists _, _.
  assert (Hgen : Generate (helpers := ref.helpers) (yaml := ref.yaml)
                          scenario.cleanParents scenario.empty = Returned (_, _))
    by reflexivity.
  destruct (@Generate_key_unchanged ref.node ref.helpers ref.yaml scenario.cleanParents
              scenario.empty _ _ scenario.cleanInstallConfig eq_refl Hgen)
    as (m & Hm & Hkey).
  - intros c rest Heq. inversion Heq. reflexivity.
  - intros front c Heq. cbn in Heq. last_byte Heq front.
  - exists m. split; [exact Hgen |]. split; [exact Hm | exact Hkey].
Defined.
